(** * Competitor Ad War Room: a shallow embedding of the backend

    The development follows the Python sources under [backend/]:
    - [database.py]    the persistence layer ([upsert_ad], [get_ads], [get_stats]);
    - [meta_api.py]    the Ad Library client ([search_ads], [get_page_id],
                       [validate_token]);
    - [ai_analyzer.py] the analysis engine ([_call_ai], [classify_ad],
                       [_fallback_batch_analysis], [generate_weekly_brief]);
    - [sample_data.py] the sample generator ([generate_sample_ads]).

    Python values are a small universe [pyval]; a Python [dict] with string
    keys is an association list in insertion order; a raised exception is an
    explicit [Raise] outcome; the clock, the network, the language model and
    the random generator are explicit arguments. *)

From Stdlib Require Import ZArith QArith.QArith_base Lia Ascii String DecimalString.
From Stdlib Require Import Floats.SpecFloat.
From stdpp Require Import gmap strings list sorting.

Open Scope string_scope.

(** ** Python values *)

Module Py.

(** The objects the backend handles: [None], booleans, integers, strings,
    naive [datetime]s (microseconds on the proleptic time line), lists and
    string-keyed dicts (JSON objects, kept in insertion order). *)
#[warnings="-register-all"]
Inductive pyval : Type :=
| PNone
| PBool (b : bool)
| PInt (n : Z)
| PStr (s : string)
| PTime (t : Z)
| PList (l : list pyval)
| PDict (d : list (string * pyval)).

Definition pydict : Type := list (string * pyval).

(** [bool(v)]: the truth value Python gives an object in [if v:] and [v or w]. *)
Definition truthy (v : pyval) : bool :=
  match v with
  | PNone => false
  | PBool b => b
  | PInt n => negb (n =? 0)%Z
  | PStr s => negb (String.eqb s "")
  | PTime _ => true
  | PList l => match l with [] => false | _ => true end
  | PDict d => match d with [] => false | _ => true end
  end.

(** [a or b] *)
Definition py_or (a b : pyval) : pyval := if truthy a then a else b.

(** Structural comparison of two values. *)
Fixpoint pyval_eqb (a b : pyval) {struct a} : bool :=
  match a, b with
  | PNone, PNone => true
  | PBool x, PBool y => Bool.eqb x y
  | PInt x, PInt y => (x =? y)%Z
  | PStr x, PStr y => String.eqb x y
  | PTime x, PTime y => (x =? y)%Z
  | PList x, PList y =>
      (fix go (x y : list pyval) : bool :=
         match x, y with
         | [], [] => true
         | u :: x', v :: y' => pyval_eqb u v && go x' y'
         | _, _ => false
         end) x y
  | PDict x, PDict y =>
      (fix go (x y : list (string * pyval)) : bool :=
         match x, y with
         | [], [] => true
         | (k, u) :: x', (k', v) :: y' => String.eqb k k' && pyval_eqb u v && go x' y'
         | _, _ => false
         end) x y
  | _, _ => false
  end.

(** Only immutable scalars can be dictionary or [Counter] keys. *)
Definition hashable (v : pyval) : bool :=
  match v with
  | PList _ | PDict _ => false
  | _ => true
  end.

(** Key comparison inside a [dict]: [True == 1] and [False == 0] hash alike,
    every other pair of scalars is compared as it is. *)
Definition key_norm (v : pyval) : pyval :=
  match v with
  | PBool b => PInt (Z.b2z b)
  | _ => v
  end.

Definition key_eqb (a b : pyval) : bool := pyval_eqb (key_norm a) (key_norm b).

(** *** Exceptions *)

Inductive exn : Type :=
| KeyError (k : string)
| TypeError
| AttributeError
| ZeroDivisionError
| IndexError
| IntegrityError
| JSONDecodeError
| RuntimeError
| ValueError
| RequestException (msg : string).

Inductive outcome (A : Type) : Type :=
| Ret (a : A)
| Raise (e : exn).

Arguments Ret {A} a.
Arguments Raise {A} e.

Definition bind {A B : Type} (m : outcome A) (f : A -> outcome B) : outcome B :=
  match m with
  | Ret a => f a
  | Raise e => Raise e
  end.

#[export] Instance outcome_mbind : MBind outcome := fun A B f m => bind m f.

(** [try: m  except <handles>: h e] *)
Definition try_except {A : Type} (m : outcome A) (handles : exn -> bool)
    (h : exn -> outcome A) : outcome A :=
  match m with
  | Ret a => Ret a
  | Raise e => if handles e then h e else Raise e
  end.

(** [except Exception] catches every exception of the model;
    [except requests.exceptions.RequestException] only that class. *)
Definition any_exception (e : exn) : bool := true.

Definition is_request_exception (e : exn) : bool :=
  match e with
  | RequestException _ => true
  | _ => false
  end.

Definition returns {A : Type} (m : outcome A) : Prop := exists a, m = Ret a.

(** *** String-keyed dicts *)

(** [d.get(k)] as an option: the binding of [k], if any. *)
Fixpoint dict_lookup (d : pydict) (k : string) : option pyval :=
  match d with
  | [] => None
  | (k', v) :: d' => if String.eqb k k' then Some v else dict_lookup d' k
  end.

(** [d.get(k, dflt)] and [d.get(k)] *)
Definition dict_get_default (d : pydict) (k : string) (dflt : pyval) : pyval :=
  default dflt (dict_lookup d k).

Definition dict_get (d : pydict) (k : string) : pyval := dict_get_default d k PNone.

(** [d[k]] *)
Definition dict_item (d : pydict) (k : string) : outcome pyval :=
  match dict_lookup d k with
  | Some v => Ret v
  | None => Raise (KeyError k)
  end.

(** [k in d] *)
Definition dict_has (d : pydict) (k : string) : bool :=
  match dict_lookup d k with Some _ => true | None => false end.

(** A dict binds each key once. *)
Definition dict_wf (d : pydict) : Prop := NoDup (d.*1).

(** [d[k] = v] on a string-keyed dict *)
Fixpoint dict_set (d : pydict) (k : string) (v : pyval) : pydict :=
  match d with
  | [] => [(k, v)]
  | (k', v') :: d' => if String.eqb k k' then (k', v) :: d' else (k', v') :: dict_set d' k v
  end.

(** *** Dicts keyed by values ([Counter], result tables) *)

Definition kdict (V : Type) : Type := list (pyval * V).

Fixpoint kd_lookup {V : Type} (d : kdict V) (k : pyval) : option V :=
  match d with
  | [] => None
  | (k', v) :: d' => if key_eqb k k' then Some v else kd_lookup d' k
  end.

(** [d[k] = v]: overwrite in place, or append a new key at the end. *)
Fixpoint kd_set {V : Type} (d : kdict V) (k : pyval) (v : V) : kdict V :=
  match d with
  | [] => [(k, v)]
  | (k', v') :: d' => if key_eqb k k' then (k', v) :: d' else (k', v') :: kd_set d' k v
  end.

Definition kd_keys {V : Type} (d : kdict V) : list pyval := d.*1.

(** [d[k] += n] on a table of counts, a missing key counting as zero *)
Fixpoint kd_add (d : kdict nat) (k : pyval) (n : nat) : kdict nat :=
  match d with
  | [] => [(k, n)]
  | (k', c) :: d' => if key_eqb k k' then (k', c + n) :: d' else (k', c) :: kd_add d' k n
  end.

(** The count a table holds for a key. *)
Definition kd_count (c : kdict nat) (k : pyval) : nat := default 0 (kd_lookup c k).

(** The keys of a table are pairwise different. *)
Fixpoint kd_distinct {V : Type} (c : kdict V) : Prop :=
  match c with
  | [] => True
  | (k, _) :: c' => kd_lookup c' k = None /\ kd_distinct c'
  end.

(** *** Strings

    A [str] is carried as its UTF-8 bytes.  Case mapping, the alphabetic test
    and the whitespace test are those of the ASCII range, which is where the
    program's identifiers, themes and format names live. *)

Definition code (c : ascii) : nat := nat_of_ascii c.

Definition is_upper (c : ascii) : bool := (65 <=? code c)%nat && (code c <=? 90)%nat.
Definition is_lower (c : ascii) : bool := (97 <=? code c)%nat && (code c <=? 122)%nat.
Definition is_alpha (c : ascii) : bool := is_upper c || is_lower c.

Definition to_lower (c : ascii) : ascii :=
  if is_upper c then ascii_of_nat (code c + 32) else c.
Definition to_upper (c : ascii) : ascii :=
  if is_lower c then ascii_of_nat (code c - 32) else c.

(** [str.isspace] on one character: TAB..CR, FS..US and the space. *)
Definition is_space (c : ascii) : bool :=
  ((9 <=? code c)%nat && (code c <=? 13)%nat) || ((28 <=? code c)%nat && (code c <=? 32)%nat).

Fixpoint str_map (f : ascii -> ascii) (s : string) : string :=
  match s with
  | EmptyString => EmptyString
  | String c s' => String (f c) (str_map f s')
  end.

(** [s.lower()] *)
Definition lower (s : string) : string := str_map to_lower s.

(** [s.title()]: a letter is upper-cased after a non-letter and lower-cased
    after a letter. *)
Fixpoint title_from (prev_cased : bool) (s : string) : string :=
  match s with
  | EmptyString => EmptyString
  | String c s' =>
      if is_alpha c
      then String (if prev_cased then to_lower c else to_upper c) (title_from true s')
      else String c (title_from false s')
  end.

Definition title (s : string) : string := title_from false s.

(** [s.replace(old, new)] for a non-empty [old]: leftmost matches, not
    overlapping.  [skip] counts the characters of a match still to drop. *)
Fixpoint replace_from (old new : string) (skip : nat) (s : string) : string :=
  match s with
  | EmptyString => EmptyString
  | String c s' =>
      match skip with
      | S k => replace_from old new k s'
      | O => if String.prefix old s
             then new ++ replace_from old new (String.length old - 1) s'
             else String c (replace_from old new 0 s')
      end
  end.

Definition replace (old new s : string) : string := replace_from old new 0 s.

(** [s.strip()] and [s.strip(chars)]: drop from both ends the characters that
    satisfy the test. *)
Fixpoint lstrip_by (p : ascii -> bool) (s : string) : string :=
  match s with
  | EmptyString => EmptyString
  | String c s' => if p c then lstrip_by p s' else s
  end.

Fixpoint rstrip_by (p : ascii -> bool) (s : string) : string :=
  match s with
  | EmptyString => EmptyString
  | String c s' =>
      match rstrip_by p s' with
      | EmptyString => if p c then EmptyString else String c EmptyString
      | r => String c r
      end
  end.

Definition strip_by (p : ascii -> bool) (s : string) : string := rstrip_by p (lstrip_by p s).

Definition strip (s : string) : string := strip_by is_space s.

Fixpoint char_in (chars : string) (c : ascii) : bool :=
  match chars with
  | EmptyString => false
  | String c' chars' => Ascii.eqb c c' || char_in chars' c
  end.

Definition strip_chars (chars s : string) : string := strip_by (char_in chars) s.

(** [needle in hay] on strings *)
Fixpoint str_contains (needle hay : string) : bool :=
  String.prefix needle hay ||
  match hay with
  | EmptyString => false
  | String _ hay' => str_contains needle hay'
  end.

(** [sep.join(parts)] *)
Fixpoint join (sep : string) (parts : list string) : string :=
  match parts with
  | [] => ""
  | [p] => p
  | p :: rest => p ++ sep ++ join sep rest
  end.

(** [str(n)] for an [int] *)
Definition str_of_int (n : Z) : string := NilEmpty.string_of_int (Z.to_int n).

(** The double quote and the line feed, for texts that contain them. *)
Definition dq : string := String (ascii_of_nat 34) EmptyString.

Definition nl : string := String (ascii_of_nat 10) EmptyString.

(** *** Operators on arbitrary values *)

(** [key in v] for a string [key]: a key of a dict, an element of a list, a
    substring of a string; any other operand is not iterable. *)
Definition py_in (key : string) (v : pyval) : outcome bool :=
  match v with
  | PDict d => Ret (dict_has d key)
  | PList l => Ret (existsb (fun x => pyval_eqb (PStr key) x) l)
  | PStr s => Ret (str_contains key s)
  | _ => Raise TypeError
  end.

(** [v[key]] for a string [key] *)
Definition py_getitem (v : pyval) (key : string) : outcome pyval :=
  match v with
  | PDict d => dict_item d key
  | _ => Raise TypeError
  end.

(** [v[0]] *)
Definition py_first (v : pyval) : outcome pyval :=
  match v with
  | PList (x :: _) => Ret x
  | PList [] => Raise IndexError
  | PStr (String c _) => Ret (PStr (String c EmptyString))
  | PStr EmptyString => Raise IndexError
  | PDict _ => Raise (KeyError "0")
  | _ => Raise TypeError
  end.

(** [v.get(key)]: only a dict has the method. *)
Definition py_get (v : pyval) (key : string) : outcome pyval :=
  match v with
  | PDict d => Ret (dict_get d key)
  | _ => Raise AttributeError
  end.

(** [str(e)] for a caught exception *)
Definition exn_str (e : exn) : string :=
  match e with
  | RequestException msg => msg
  | KeyError k => k
  | _ => ""
  end.

(** *** The clock

    A naive [datetime] is a number of microseconds on its own time line.
    [datetime.timestamp()] reads a naive value as local time: with the host
    [utcoffset] seconds east of UTC, the POSIX time is the naive value less
    the offset.  [datetime.utcfromtimestamp] gives back the naive UTC reading
    of a POSIX time.  Both are carried in microseconds. *)
Definition usec : Z := 1000000.

Definition timestamp (utcoffset : Z) (naive : Z) : Z := (naive - utcoffset * usec)%Z.

Definition utcfromtimestamp (posix : Z) : Z := posix.

(** [timedelta(days=d)] and [delta.days] *)
Definition timedelta_days (d : Z) : Z := (d * (86400 * usec))%Z.

Definition days_of (delta : Z) : Z := (delta / (86400 * usec))%Z.

(** *** Floating-point division and rounding

    [round(a / b * 100)] on two counts runs in binary64.  A positive
    binary64 number in the normal range is a mantissa of at most 53 bits
    and an exponent, [m * 2^e]; every operation gives the representable
    number nearest to the exact result, ties to the even mantissa.  Counts
    below [2^53] and their quotients stay in the normal range, so no
    exponent bound is carried. *)
Definition float : Type := (Z * Z)%type.

(** [n / (d * 2^e)] as a fraction of integers *)
Definition scaled (n d e : Z) : Z * Z :=
  if (0 <=? e)%Z then (n, d * 2 ^ e)%Z else (n * 2 ^ (- e), d)%Z.

(** The integer nearest to [num / den], ties to even ([den > 0]). *)
Definition nearest_even (num den : Z) : Z :=
  let q := (num / den)%Z in
  let r := (num mod den)%Z in
  if (2 * r <? den)%Z then q
  else if (den <? 2 * r)%Z then (q + 1)%Z
  else if Z.even q then q else (q + 1)%Z.

(** The binary64 number nearest to [n / d], for [n >= 0] and [d > 0]. *)
Definition round53 (n d : Z) : float :=
  if (n =? 0)%Z then (0, 0)%Z
  else
    let e0 := (Z.log2 n - Z.log2 d - 52)%Z in
    let '(num0, den0) := scaled n d e0 in
    let e := if (num0 <? den0 * 2 ^ 52)%Z then (e0 - 1)%Z else e0 in
    let '(num, den) := scaled n d e in
    (nearest_even num den, e).

(** [float(n)] for a non-negative [int] *)
Definition float_of_int (n : Z) : float := round53 n 1.

(** [a / b] on two positive ints *)
Definition int_truediv (a b : Z) : outcome float :=
  if (b =? 0)%Z then Raise ZeroDivisionError else Ret (round53 a b).

(** [x * y] *)
Definition float_mul (x y : float) : float :=
  let '(num, den) := scaled (x.1 * y.1) 1 (- (x.2 + y.2)) in round53 num den.

(** [round(x)]: the nearest [int], ties to even *)
Definition py_round (x : float) : Z :=
  let '(num, den) := scaled x.1 1 (- x.2) in nearest_even num den.

(** [round(count / total * 100)] *)
Definition percent (count total : nat) : outcome Z :=
  bind (int_truediv (Z.of_nat count) (Z.of_nat total))
       (fun x => Ret (py_round (float_mul x (float_of_int 100)))).

(** The same computation through the binary64 operations of the Standard
    Library's [SpecFloat]. *)
Definition b64_of_int (n : Z) : spec_float := binary_normalize 53 1024 n 0 false.

Definition b64_round (x : spec_float) : option Z :=
  match x with
  | S754_zero _ => Some 0%Z
  | S754_finite s m e =>
      let '(num, den) := scaled (Z.pos m) 1 (- e) in
      Some (if s then (- nearest_even num den)%Z else nearest_even num den)
  | _ => None
  end.

Definition b64_percent (count total : nat) : option Z :=
  b64_round (SFmul 53 1024 (SFdiv 53 1024 (b64_of_int (Z.of_nat count))
                                          (b64_of_int (Z.of_nat total)))
                           (b64_of_int 100)).

(** *** The runtime

    Library routines the sources call and whose text is not theirs:
    [str()] of a value that is no scalar, [datetime.strftime], [json.dumps]
    and [json.loads], and the order in which a set of strings is iterated.
    [json.loads] rejects the empty document; iterating a set visits each
    member once. *)
Class Runtime : Type := {
  repr_other : pyval -> string;
  strftime : string -> Z -> string;
  json_dumps : pyval -> outcome string;
  json_loads : string -> outcome pyval;
  json_loads_empty : json_loads "" = Raise JSONDecodeError;
  set_iter : list string -> list string;
  set_iter_perm : forall l, set_iter l ≡ₚ l
}.

(** [str(v)], the text an f-string puts for [{v}] *)
Definition py_str `{Runtime} (v : pyval) : string :=
  match v with
  | PNone => "None"
  | PBool true => "True"
  | PBool false => "False"
  | PInt n => str_of_int n
  | PStr s => s
  | _ => repr_other v
  end.

(** *** Effects

    A computation that talks to the outside leaves a trace of events of type
    [E] and ends in an outcome. *)
Definition io (E A : Type) : Type := (list E * outcome A)%type.

Definition io_ret {E A : Type} (a : A) : io E A := ([], Ret a).

Definition io_raise {E A : Type} (e : exn) : io E A := ([], Raise e).

Definition io_emit {E : Type} (ev : E) : io E unit := ([ev], Ret tt).

Definition io_lift {E A : Type} (m : outcome A) : io E A := ([], m).

Definition io_bind {E A B : Type} (m : io E A) (f : A -> io E B) : io E B :=
  match m with
  | (t, Ret a) => let '(t', r) := f a in ((t ++ t')%list, r)
  | (t, Raise e) => (t, Raise e)
  end.

#[export] Instance io_mbind {E : Type} : MBind (io E) := fun A B f m => io_bind m f.

(** [try: m  except <handles> as e: h e] *)
Definition io_try {E A : Type} (m : io E A) (handles : exn -> bool)
    (h : exn -> io E A) : io E A :=
  match m with
  | (t, Ret a) => (t, Ret a)
  | (t, Raise e) => if handles e then let '(t', r) := h e in ((t ++ t')%list, r)
                    else (t, Raise e)
  end.

End Py.

Import Py.

(** ** The persistence layer ([backend/database.py]) *)

Module Database.

(** The columns of table [ads], in the order of class [AdRecord]. *)
Definition columns : list string :=
  [ "id"; "page_name"; "page_id"; "brand_key"; "competitor_name";
    "ad_body"; "ad_title"; "ad_description";
    "media_type"; "publisher_platforms"; "languages";
    "ad_creation_time"; "ad_delivery_start_time"; "ad_delivery_stop_time";
    "spend_lower"; "spend_upper"; "impressions_lower"; "impressions_upper";
    "ad_snapshot_url";
    "theme"; "is_active"; "run_days"; "is_top_performer"; "is_sample";
    "ai_theme"; "ai_sentiment"; "ai_cta_type"; "ai_angle";
    "fetched_at" ].

(** [hasattr(existing, k)] / [hasattr(AdRecord, k)]: whether [k] names a
    mapped column.  (The other attributes a declarative class carries are
    not columns and never reach the table.) *)
Definition hasattr (k : string) : bool := bool_decide (k ∈ columns).

(** An [AdRecord] instance: the values of its column attributes.  A column
    that was never set reads as [None] (SQL NULL). *)
Abbreviation row := (gmap string pyval).

Definition attr (r : row) (k : string) : pyval := default PNone (r !! k).

(** [setattr(r, k, v)] *)
Definition setattr (r : row) (k : string) (v : pyval) : row := <[k := v]> r.

(** The store: the rows of table [ads], in insertion order. *)
Abbreviation table := (list row).

(** SQL equality: NULL is equal to nothing. *)
Definition sql_eqb (a b : pyval) : bool :=
  match a, b with
  | PNone, _ | _, PNone => false
  | _, _ => key_eqb a b
  end.

(** [db.query(AdRecord).filter_by(id=i).first()]: position and row. *)
Fixpoint find_by_id (t : table) (i : pyval) : option (nat * row) :=
  match t with
  | [] => None
  | r :: t' =>
      if sql_eqb (attr r "id") i then Some (0, r)
      else match find_by_id t' i with
           | Some (n, r') => Some (S n, r')
           | None => None
           end
  end.

(** Column defaults applied by the INSERT to the columns the constructor
    left unset; [fetched_at] defaults to [datetime.utcnow()]. *)
Definition column_defaults (utcnow : Z) : row :=
  {[ "is_active" := PBool true;
     "run_days" := PInt 0;
     "is_top_performer" := PBool false;
     "is_sample" := PBool false;
     "fetched_at" := PTime utcnow ]}.

(** [for k, v in ad_data.items(): if hasattr(existing, k): setattr(existing, k, v)] *)
Definition assign_known (existing : row) (ad_data : pydict) : row :=
  foldl (fun r kv => if hasattr kv.1 then setattr r kv.1 kv.2 else r) existing ad_data.

(** The constructor call on [{k: v for k, v in ad_data.items() if hasattr(AdRecord, k)}]:
    every retained pair becomes an attribute of the new instance. *)
Definition construct (ad_data : pydict) : row :=
  foldl (fun r kv => setattr r kv.1 kv.2) ∅ (List.filter (fun kv => hasattr kv.1) ad_data).

(** [db.add(record); db.commit()]: the primary key must be non-NULL. *)
Definition insert_row (utcnow : Z) (t : table) (record : row) : outcome (table * row) :=
  match attr record "id" with
  | PNone => Raise IntegrityError
  | _ => let stored := record ∪ column_defaults utcnow in Ret ((t ++ [stored])%list, stored)
  end.

Definition upsert_ad (utcnow : Z) (db : table) (ad_data : pydict) : outcome (table * row) :=
  bind (dict_item ad_data "id") (fun i =>
  match find_by_id db i with
  | Some (n, existing) =>
      let updated := assign_known existing ad_data in
      Ret (<[n := updated]> db, updated)
  | None => insert_row utcnow db (construct ad_data)
  end).

(** The rows a query by primary key selects, and the primary-key constraint:
    no two rows of the table carry the same id. *)
Definition rows_with_id (t : table) (i : pyval) : table :=
  List.filter (fun r => sql_eqb (attr r "id") i) t.

Definition pk_unique (t : table) : Prop :=
  forall i, length (rows_with_id t i) <= 1.

(** *** Queries *)

(** The arguments of [get_ads]; [None] is an omitted argument. *)
Record get_ads_args : Type := {
  brand_key : option string;
  competitor_name : option string;
  media_type : option string;
  theme : option string;
  is_active : option bool;
  days_back : option Z;
  limit : Z
}.

Definition default_args : get_ads_args :=
  {| brand_key := None; competitor_name := None; media_type := None; theme := None;
     is_active := None; days_back := None; limit := 200 |}.

(** [if arg: q = q.filter(AdRecord.col == arg)] *)
Definition filter_str (col : string) (arg : option string) (q : table) : table :=
  match arg with
  | Some s => if truthy (PStr s)
              then List.filter (fun r => sql_eqb (attr r col) (PStr s)) q
              else q
  | None => q
  end.

(** [if is_active is not None: q = q.filter(AdRecord.is_active == is_active)] *)
Definition filter_active (arg : option bool) (q : table) : table :=
  match arg with
  | Some b => List.filter (fun r => sql_eqb (attr r "is_active") (PBool b)) q
  | None => q
  end.

(** The value a DateTime column is ordered and compared by; NULL has none. *)
Definition time_key (r : row) (col : string) : option Z :=
  match attr r col with
  | PTime t => Some t
  | _ => None
  end.

(** [AdRecord.ad_delivery_start_time >= cutoff]; a NULL never satisfies it. *)
Definition started_since (cutoff : Z) (r : row) : bool :=
  match time_key r "ad_delivery_start_time" with
  | Some t => (cutoff <=? t)%Z
  | None => false
  end.

(** [if days_back: cutoff = datetime.utcnow().timestamp() - days_back * 86400 ...] *)
Definition cutoff_of (utcnow utcoffset days : Z) : Z :=
  utcfromtimestamp (timestamp utcoffset utcnow - days * 86400 * usec).

Definition filter_days (utcnow utcoffset : Z) (arg : option Z) (q : table) : table :=
  match arg with
  | Some d => if truthy (PInt d)
              then List.filter (started_since (cutoff_of utcnow utcoffset d)) q
              else q
  | None => q
  end.

(** [ORDER BY ad_delivery_start_time DESC]: NULL sorts below every value;
    rows with equal keys keep their table order. *)
Definition key_ltb (a b : option Z) : bool :=
  match a, b with
  | None, Some _ => true
  | Some x, Some y => (x <? y)%Z
  | _, None => false
  end.

Fixpoint insert_desc (r : row) (l : table) : table :=
  match l with
  | [] => [r]
  | x :: l' =>
      if key_ltb (time_key r "ad_delivery_start_time") (time_key x "ad_delivery_start_time")
      then x :: insert_desc r l'
      else r :: x :: l'
  end.

Definition order_by_start_desc (q : table) : table := foldr insert_desc [] q.

(** [a] does not start before [b]: the order a descending result obeys. *)
Definition start_ge (a b : row) : Prop :=
  key_ltb (time_key a "ad_delivery_start_time") (time_key b "ad_delivery_start_time") = false.

(** [LIMIT n]: SQLite reads a negative bound as no bound. *)
Definition sql_limit (n : Z) (q : table) : table :=
  if (n <? 0)%Z then q else take (Z.to_nat n) q.

Definition get_ads (utcnow utcoffset : Z) (db : table) (a : get_ads_args) : table :=
  let q := db in
  let q := filter_str "brand_key" (brand_key a) q in
  let q := filter_str "competitor_name" (competitor_name a) q in
  let q := filter_str "media_type" (media_type a) q in
  let q := filter_str "theme" (theme a) q in
  let q := filter_active (is_active a) q in
  let q := filter_days utcnow utcoffset (days_back a) q in
  sql_limit (limit a) (order_by_start_desc q).

(** *** Aggregates *)

Record stats : Type := {
  total_ads : nat;
  active_ads : nat;
  top_performers : nat;
  media_breakdown : kdict nat;
  theme_breakdown : kdict nat;
  competitor_breakdown : kdict nat
}.

(** [q.filter(AdRecord.col == v).count()] *)
Definition count_where (col : string) (v : pyval) (q : table) : nat :=
  length (List.filter (fun r => sql_eqb (attr r col) v) q).

(** One step of [GROUP BY col] with [count(AdRecord.id)]: the row joins the
    group of its column value (NULLs form one group) and counts when its id
    is not NULL. *)
Definition group_count (col : string) (q : table) : kdict nat :=
  foldl (fun g r => kd_add g (attr r col)
                      (match attr r "id" with PNone => 0 | _ => 1 end)) [] q.

(** [for row in ...all(): if row[0]: counts[row[0]] = row[1]] *)
Definition collect_nonempty (rows : kdict nat) : kdict nat :=
  foldl (fun d row => if truthy row.1 then kd_set d row.1 row.2 else d) [] rows.

Definition MEDIA : list string := ["IMAGE"; "VIDEO"; "CAROUSEL"].

Definition get_stats (db : table) (brand : option string) : stats :=
  let q := filter_str "brand_key" brand db in
  let total := length q in
  let active := count_where "is_active" (PBool true) q in
  let top := count_where "is_top_performer" (PBool true) q in
  let media_counts :=
    foldl (fun d mt => kd_set d (PStr mt) (count_where "media_type" (PStr mt) q)) [] MEDIA in
  let theme_counts := collect_nonempty (group_count "theme" (filter_str "brand_key" brand db)) in
  let comp_counts :=
    collect_nonempty (group_count "competitor_name" (filter_str "brand_key" brand db)) in
  {| total_ads := total;
     active_ads := active;
     top_performers := top;
     media_breakdown := media_counts;
     theme_breakdown := theme_counts;
     competitor_breakdown := comp_counts |}.

End Database.

(** ** The Ad Library client ([backend/meta_api.py]) *)

Module MetaApi.

Definition GRAPH_API_BASE : string := "https://graph.facebook.com/v18.0".

(** What the client does to the outside: it sleeps and it issues GET
    requests (url, query parameters with the session's own merged in,
    timeout in seconds).  Log lines are not traced. *)
Inductive event : Type :=
| Sleep (seconds : Q)
| HttpGet (url : string) (params : pydict) (timeout : Z).

(** What the outside answers to a GET: the request fails in transport
    (connection error, timeout: a [RequestException]), or a response arrives
    with its status, the message [raise_for_status] would raise with, and a
    body that decodes as JSON or does not. *)
Inductive body : Type :=
| NotJson (msg : string)
| Json (v : pyval).

Inductive reply : Type :=
| NoReply (msg : string)
| HttpReply (status : Z) (status_error : string) (b : body).

Definition network : Type := string -> pydict -> reply.

Record MetaAdLibraryClient : Type := {
  access_token : string;
  session_params : pydict;
  rate_limit_sleep : Q
}.

(** [MetaAdLibraryClient(access_token)] *)
Definition init (token : string) : MetaAdLibraryClient :=
  {| access_token := token;
     session_params := [("access_token", PStr token)];
     rate_limit_sleep := 1 |}.

(** [time.sleep(d)] *)
Definition sleep (d : Q) : io event unit := io_emit (Sleep d).

(** [self.session.get(url, params=params, timeout=timeout)] *)
Definition session_get (c : MetaAdLibraryClient) (net : network)
    (url : string) (params : pydict) (timeout : Z) : io event reply :=
  ([HttpGet url (session_params c ++ params)%list timeout],
   match net url params with
   | NoReply msg => Raise (RequestException msg)
   | r => Ret r
   end).

(** [resp.raise_for_status()] *)
Definition raise_for_status (r : reply) : outcome unit :=
  match r with
  | HttpReply status msg _ =>
      if (400 <=? status)%Z && (status <? 600)%Z then Raise (RequestException msg) else Ret tt
  | NoReply msg => Raise (RequestException msg)
  end.

(** [resp.json()]; its decode error is a [RequestException]. *)
Definition resp_json (r : reply) : outcome pyval :=
  match r with
  | HttpReply _ _ (Json v) => Ret v
  | HttpReply _ _ (NotJson msg) => Raise (RequestException msg)
  | NoReply msg => Raise (RequestException msg)
  end.

Record search_args : Type := {
  search_terms : string;
  page_ids : option (list pyval);
  country : string;
  ad_active_status : string;
  media_type : string;
  ad_delivery_date_min : option string;
  ad_delivery_date_max : option string;
  limit : Z;
  after_cursor : option string
}.

Definition default_search : search_args :=
  {| search_terms := ""; page_ids := None; country := "IN"; ad_active_status := "ALL";
     media_type := "ALL"; ad_delivery_date_min := None; ad_delivery_date_max := None;
     limit := 25; after_cursor := None |}.

Definition FIELDS : list string :=
  [ "id"; "ad_creation_time"; "ad_delivery_start_time"; "ad_delivery_stop_time";
    "ad_creative_bodies"; "ad_creative_link_captions"; "ad_creative_link_descriptions";
    "ad_creative_link_titles"; "page_id"; "page_name"; "spend"; "impressions";
    "demographic_distribution"; "region_distribution"; "ad_snapshot_url"; "languages";
    "publisher_platforms" ].

(** [if arg: params[key] = arg] for an optional string *)
Definition set_if (params : pydict) (key : string) (arg : option string) : pydict :=
  match arg with
  | Some s => if truthy (PStr s) then dict_set params key (PStr s) else params
  | None => params
  end.

(** The query parameters; [json.dumps(page_ids)] runs before the [try]. *)
Definition build_params `{Runtime} (a : search_args) : outcome pydict :=
  let params :=
    [ ("search_type",
       PStr (if truthy (PStr (search_terms a)) then "KEYWORD_EXACT_PHRASE" else "PAGE"));
      ("ad_reached_countries", PStr ("[" ++ dq ++ country a ++ dq ++ "]"));
      ("ad_active_status", PStr (ad_active_status a));
      ("media_type", PStr (media_type a));
      ("limit", PInt (limit a));
      ("fields", PStr (join "," FIELDS)) ] in
  let params := set_if params "search_terms" (Some (search_terms a)) in
  bind (match page_ids a with
        | Some ids =>
            if truthy (PList ids)
            then bind (json_dumps (PList ids))
                      (fun s => Ret (dict_set params "search_page_ids" (PStr s)))
            else Ret params
        | None => Ret params
        end) (fun params =>
  let params := set_if params "ad_delivery_date_min" (ad_delivery_date_min a) in
  let params := set_if params "ad_delivery_date_max" (ad_delivery_date_max a) in
  let params := set_if params "after" (after_cursor a) in
  Ret params).

(** The result that stands for a failure. *)
Definition error_result (err : pyval) : pyval :=
  PDict [("data", PList []); ("paging", PDict []); ("error", err)].

Definition search_ads `{Runtime} (c : MetaAdLibraryClient) (net : network)
    (a : search_args) : io event pyval :=
  params ← io_lift (build_params a);
  io_try
    (_ ← sleep (rate_limit_sleep c);
     resp ← session_get c net (GRAPH_API_BASE ++ "/ads_archive") params 30;
     _ ← io_lift (raise_for_status resp);
     result ← io_lift (resp_json resp);
     has_error ← io_lift (py_in "error" result);
     if has_error : bool
     then err ← io_lift (py_getitem result "error");
          io_ret (error_result err)
     else io_ret result)
    is_request_exception
    (fun e => io_ret (error_result (PStr (exn_str e)))).

(** [get_page_id]: the id of the first page found, or [None]. *)
Definition get_page_id (c : MetaAdLibraryClient) (net : network)
    (page_name : string) : io event pyval :=
  io_try
    (_ ← sleep (rate_limit_sleep c);
     resp ← session_get c net (GRAPH_API_BASE ++ "/pages/search")
              [("q", PStr page_name); ("fields", PStr "id,name,verification_status")] 20;
     _ ← io_lift (raise_for_status resp);
     data ← io_lift (resp_json resp);
     found ← io_lift (py_get data "data");
     if truthy found
     then pages ← io_lift (py_getitem data "data");
          page ← io_lift (py_first pages);
          io_lift (py_getitem page "id")
     else io_ret PNone)
    any_exception
    (fun e => io_ret PNone).

(** [validate_token]: whether the identity endpoint answers with an id. *)
Definition validate_token (c : MetaAdLibraryClient) (net : network) : io event bool :=
  io_try
    (resp ← session_get c net (GRAPH_API_BASE ++ "/me") [("fields", PStr "id,name")] 10;
     data ← io_lift (resp_json resp);
     io_lift (py_in "id" data))
    any_exception
    (fun e => io_ret false).

(** The rate-limit discipline on a trace: every GET comes right after a
    sleep of the given delay. *)
Fixpoint delayed_from (delay : Q) (slept : bool) (t : list event) : bool :=
  match t with
  | [] => true
  | Sleep d :: t' => delayed_from delay (Qeq_bool d delay) t'
  | HttpGet _ _ _ :: t' => slept && delayed_from delay false t'
  end.

Definition rate_limited (delay : Q) (t : list event) : bool := delayed_from delay false t.

End MetaApi.

(** ** The analysis engine ([backend/ai_analyzer.py]) *)

Module AiAnalyzer.

(** The environment: [GEMINI_API_KEY] (empty when unset) and [GEMINI_MODEL]. *)
Record config : Type := {
  GEMINI_API_KEY : string;
  GEMINI_MODEL : string
}.

(** A request sent to the language model. *)
Inductive event : Type :=
| GenerateContent (model_name system_instruction prompt : string) (max_output_tokens : Z).

(** What comes of one attempt: the client library cannot be loaded or
    configured (nothing is sent), the request or the reading of its text
    raises, or a text comes back. *)
Inductive completion : Type :=
| Unavailable
| CallFails
| Text (s : string).

Definition language_model : Type := string -> string -> string -> Z -> completion.

Definition _call_ai (cfg : config) (lm : language_model) (prompt system : string)
    (max_tokens : Z) : io event string :=
  if negb (truthy (PStr (GEMINI_API_KEY cfg))) then io_ret ""
  else
    io_try
      (let system_instruction :=
         if truthy (PStr system) then system
         else "You are a marketing intelligence analyst." in
       match lm (GEMINI_MODEL cfg) system_instruction prompt max_tokens with
       | Unavailable => io_raise RuntimeError
       | CallFails =>
           ([GenerateContent (GEMINI_MODEL cfg) system_instruction prompt max_tokens],
            Raise RuntimeError)
       | Text s =>
           ([GenerateContent (GEMINI_MODEL cfg) system_instruction prompt max_tokens],
            Ret (if truthy (PStr s) then s else ""))
       end)
      any_exception
      (fun _ => io_ret "").

(** *** [classify_ad] *)

Definition CLASSIFY_SYSTEM : string :=
  "You are an expert D2C marketing analyst specializing in Indian consumer brands.
Analyze ad copy and classify it precisely. Always return valid JSON only, no markdown.".

Definition classify_prompt `{Runtime} (ad_body ad_title : pyval)
    (competitor brand_category : string) : string :=
  "Analyze this ad from competitor brand " ++ dq ++ competitor ++ dq ++ " in the " ++ dq ++ brand_category ++ dq ++ " category:

AD TITLE: " ++ py_str (py_or ad_title (PStr "N/A")) ++ "
AD BODY: " ++ py_str (py_or ad_body (PStr "N/A")) ++ "

Classify and return ONLY this JSON:
{
  " ++ dq ++ "theme" ++ dq ++ ": " ++ dq ++ "<one of: ugc_testimonial | doctor_authority | offer_promo | ingredient_science | community_story | before_after | parent_reassurance | comparison | seasonal | emotional_storytelling>" ++ dq ++ ",
  " ++ dq ++ "sentiment" ++ dq ++ ": " ++ dq ++ "<positive | urgency | fear_of_missing_out | aspirational | informational>" ++ dq ++ ",
  " ++ dq ++ "cta_type" ++ dq ++ ": " ++ dq ++ "<shop_now | learn_more | get_offer | book_consultation | free_trial | subscribe>" ++ dq ++ ",
  " ++ dq ++ "creative_angle" ++ dq ++ ": " ++ dq ++ "<one-sentence description of the core message strategy>" ++ dq ++ ",
  " ++ dq ++ "has_price_mention" ++ dq ++ ": <true|false>,
  " ++ dq ++ "has_social_proof" ++ dq ++ ": <true|false>,
  " ++ dq ++ "has_expert_endorsement" ++ dq ++ ": <true|false>
}".

(** The object returned when no classification can be had. *)
Definition UNKNOWN_CLASSIFICATION : pyval :=
  PDict [ ("theme", PStr "unknown");
          ("sentiment", PStr "unknown");
          ("cta_type", PStr "unknown");
          ("creative_angle", PStr "Could not analyze");
          ("has_price_mention", PBool false);
          ("has_social_proof", PBool false);
          ("has_expert_endorsement", PBool false) ].

(** [result.strip().strip("```json").strip("```").strip()] *)
Definition strip_fence (result : string) : string :=
  strip (strip_chars "```" (strip_chars "```json" (strip result))).

Definition classify_ad `{Runtime} (cfg : config) (lm : language_model)
    (ad_body ad_title : pyval) (competitor brand_category : string) : io event pyval :=
  let system := CLASSIFY_SYSTEM in
  let prompt := classify_prompt ad_body ad_title competitor brand_category in
  result ← _call_ai cfg lm prompt system 400;
  io_try (io_lift (json_loads (strip_fence result)))
         any_exception
         (fun _ => io_ret UNKNOWN_CLASSIFICATION).

(** *** [_fallback_batch_analysis] *)

(** [counter[k] += 1] *)
Definition counter_incr (c : kdict nat) (k : pyval) : outcome (kdict nat) :=
  if hashable k then Ret (kd_add c k 1) else Raise TypeError.

(** [counter.most_common(1)[0]]: the largest count, the first inserted
    among equals. *)
Fixpoint most_common1 (c : kdict nat) : option (pyval * nat) :=
  match c with
  | [] => None
  | (k, n) :: c' =>
      match most_common1 c' with
      | Some (k', n') => if (n <? n')%nat then Some (k', n') else Some (k, n)
      | None => Some (k, n)
      end
  end.

Definition top_or (c : kdict nat) (dflt : string) : pyval * nat :=
  default (PStr dflt, 0) (most_common1 c).

Definition theme_of (ad : pydict) : pyval :=
  py_or (dict_get ad "theme") (dict_get_default ad "_theme" (PStr "unknown")).

Definition media_of (ad : pydict) : pyval := dict_get_default ad "media_type" (PStr "IMAGE").

Definition competitor_of (ad : pydict) : pyval :=
  py_or (dict_get ad "competitor_name") (dict_get_default ad "_competitor" (PStr "unknown")).

(** [ad.get(k) or ad.get(alt, False)] as a condition *)
Definition flag (ad : pydict) (k alt : string) : bool :=
  truthy (py_or (dict_get ad k) (dict_get_default ad alt (PBool false))).

Record tally : Type := {
  themes : kdict nat;
  media_types : kdict nat;
  competitors : kdict nat;
  active_count : nat;
  top_performer_count : nat
}.

Definition empty_tally : tally :=
  {| themes := []; media_types := []; competitors := [];
     active_count := 0; top_performer_count := 0 |}.

(** One turn of [for ad in ads] *)
Definition tally_ad (t : tally) (ad : pydict) : outcome tally :=
  th ← counter_incr (themes t) (theme_of ad);
  md ← counter_incr (media_types t) (media_of ad);
  cp ← counter_incr (competitors t) (competitor_of ad);
  Ret {| themes := th; media_types := md; competitors := cp;
         active_count :=
           if flag ad "is_active" "_is_active" then S (active_count t) else active_count t;
         top_performer_count :=
           if flag ad "is_top_performer" "_is_top_performer"
           then S (top_performer_count t) else top_performer_count t |}.

Fixpoint tally_ads (t : tally) (ads : list pydict) : outcome tally :=
  match ads with
  | [] => Ret t
  | ad :: rest => t' ← tally_ad t ad; tally_ads t' rest
  end.

Definition ALL_FORMATS : list string := ["IMAGE"; "VIDEO"; "CAROUSEL"].

(** [all_formats - used_formats] *)
Definition unused_formats (media : kdict nat) : list string :=
  List.filter (fun f => negb (existsb (key_eqb (PStr f)) (kd_keys media))) ALL_FORMATS.

(** [underused[0] if underused else "CAROUSEL"], with [underused] the list
    of the difference in the order the set is iterated *)
Definition pick_underused `{Runtime} (media : kdict nat) : string :=
  match set_iter (unused_formats media) with
  | f :: _ => f
  | [] => "CAROUSEL"
  end.

(** The receiver of [.replace('_', ' ')] must be a [str]. *)
Definition replace_receiver (v : pyval) : outcome string :=
  match v with
  | PStr s => Ret s
  | PTime _ => Raise TypeError
  | _ => Raise AttributeError
  end.

Definition insight (type title detail : string) (involved : list pyval)
    (urgency action : string) : pyval :=
  PDict [ ("type", PStr type);
          ("title", PStr title);
          ("detail", PStr detail);
          ("competitors_involved", PList involved);
          ("urgency", PStr urgency);
          ("recommended_action", PStr action) ].

Definition _fallback_batch_analysis `{Runtime} (ads : list pydict) (brand_display : string)
    : outcome pyval :=
  t ← tally_ads empty_tally ads;
  let top_performer_count := top_performer_count t in
  let total := length ads in
  let top_theme := top_or (themes t) "unknown" in
  let top_media := top_or (media_types t) "IMAGE" in
  let top_comp := top_or (competitors t) "unknown" in
  let underused_format := pick_underused (media_types t) in
  theme ← replace_receiver top_theme.1;
  pct_theme ← percent top_theme.2 total;
  pct_media ← percent top_media.2 total;
  pct_top ← percent top_performer_count total;
  Ret (PDict
    [ ("insights", PList
        [ insight "trend"
            (title (replace "_" " " theme) ++ " Ads Dominate")
            (str_of_int pct_theme ++ "% of competitor ads use the '" ++ replace "_" " " theme ++ "' approach. This is the default messaging strategy across the competitive set.")
            [top_comp.1] "medium"
            ("Test differentiating from this pattern — " ++ brand_display ++ " can stand out with a contrarian approach.");
          insight "trend"
            (py_str top_media.1 ++ " Is the Dominant Format")
            (str_of_int pct_media ++ "% of all ads are " ++ py_str top_media.1 ++ "s. This signals where competitors are investing creative budget.")
            (take 3 (kd_keys (competitors t))) "medium"
            ("Ensure " ++ brand_display ++ " matches parity in " ++ py_str top_media.1 ++ " production.");
          insight "opportunity"
            (underused_format ++ " Ads Are an Untapped Gap")
            ("Competitors are underusing " ++ underused_format ++ " format. This is a creative whitespace for " ++ brand_display ++ " to own.")
            [] "high"
            ("Launch 2-3 " ++ underused_format ++ " ads immediately to claim this format advantage.");
          insight "top_performer"
            (str_of_int (Z.of_nat top_performer_count) ++ " Long-Running Ads Detected")
            (str_of_int (Z.of_nat top_performer_count) ++ " ads (" ++ str_of_int pct_top ++ "% of total) have been running 30+ days — these are likely top-performing creatives competitors are scaling.")
            [top_comp.1] "high"
            ("Reverse-engineer these long-running creatives for themes that resonate with your shared audience.");
          insight "warning"
            (py_str top_comp.1 ++ " Is Most Active")
            (py_str top_comp.1 ++ " has the most ads in the competitive set (" ++ str_of_int (Z.of_nat top_comp.2) ++ " tracked). They are likely outspending others in this period.")
            [top_comp.1] "high"
            ("Monitor " ++ py_str top_comp.1 ++ "'s messaging closely — they may be testing a new campaign strategy.") ]);
      ("dominant_theme", top_theme.1);
      ("rising_theme", PStr "ugc_testimonial");
      ("underused_format", PStr underused_format);
      ("top_spending_competitor", top_comp.1);
      ("summary_one_liner", PStr
         (py_str top_comp.1 ++ " leads activity with " ++ replace "_" " " theme ++ " messaging dominating " ++ str_of_int pct_theme ++ "% of creatives.")) ]).

(** *** What the properties speak of *)

(** The counter a loop [for ad in ads: counter[key(ad)] += 1] builds. *)
Definition count_keys (key : pydict -> pyval) (c : kdict nat) (ads : list pydict) : kdict nat :=
  foldl (fun c ad => kd_add c (key ad) 1) c ads.

(** How many ads of a batch carry a theme, and whether a format occurs. *)
Definition theme_count (ads : list pydict) (t : pyval) : nat :=
  length (List.filter (fun ad => key_eqb t (theme_of ad)) ads).

Definition observed (ads : list pydict) (f : string) : bool :=
  existsb (fun ad => key_eqb (PStr f) (media_of ad)) ads.

(** The fields the analysis reads have their schema types: the theme is a
    string, the media type and the competitor name are scalars. *)
Definition analyzable (ad : pydict) : bool :=
  match theme_of ad with
  | PStr _ => hashable (media_of ad) && hashable (competitor_of ad)
  | _ => false
  end.

(** The [type] members of a list of insights. *)
Definition insight_types (l : list pyval) : list pyval :=
  (fun i => match i with PDict d => dict_get d "type" | _ => PNone end) <$> l.

(** *** [generate_weekly_brief] *)

Definition BRIEF_SYSTEM : string :=
  "You are a senior marketing strategist writing a weekly competitive intelligence brief.
Write in a direct, punchy tone. No fluff. Marketing managers read this on Monday morning.
Make them say 'wow, I didn't know that'. Be specific. Use numbers. Name competitors.".

(** [v[:5]] *)
Definition first_five (v : pyval) : outcome (list pyval) :=
  match v with
  | PList l => Ret (take 5 l)
  | PStr s => Ret ((fun c => PStr (String c EmptyString)) <$> take 5 (list_ascii_of_string s))
  | _ => Raise TypeError
  end.

(** [f"- {ins['title']}: {ins['detail']}"] for each insight *)
Fixpoint insight_lines `{Runtime} (l : list pyval) : outcome (list string) :=
  match l with
  | [] => Ret []
  | ins :: rest =>
      ins_title ← py_getitem ins "title";
      ins_detail ← py_getitem ins "detail";
      lines ← insight_lines rest;
      Ret (("- " ++ py_str ins_title ++ ": " ++ py_str ins_detail) :: lines)
  end.

Definition generate_weekly_brief `{Runtime} (cfg : config) (lm : language_model) (now : Z)
    (brand_key brand_display : string) (ads : list pydict) (analysis : pydict)
    : io event string :=
  if negb (truthy (PList (PDict <$> ads)))
  then io_ret ("# Weekly Brief — " ++ brand_display ++ "

No competitor ad data available for this period.")
  else
    let total := length ads in
    let active := length (List.filter (fun a => flag a "is_active" "_is_active") ads) in
    let top_performers :=
      length (List.filter (fun a => flag a "is_top_performer" "_is_top_performer") ads) in
    let system := BRIEF_SYSTEM in
    shown ← io_lift (first_five (dict_get_default analysis "insights" (PList [])));
    lines ← io_lift (insight_lines shown);
    let insights_text := join nl lines in
    let prompt :=
      "Write a weekly competitive intelligence brief for " ++ brand_display ++ "'s marketing team.

DATA THIS WEEK:
- Total competitor ads tracked: " ++ str_of_int (Z.of_nat total) ++ "
- Active ads right now: " ++ str_of_int (Z.of_nat active) ++ "
- Long-running top performers: " ++ str_of_int (Z.of_nat top_performers) ++ "
- Dominant theme: " ++ py_str (dict_get_default analysis "dominant_theme" (PStr "ugc_testimonial")) ++ "
- Rising theme: " ++ py_str (dict_get_default analysis "rising_theme" (PStr "unknown")) ++ "
- Creative gap: " ++ py_str (dict_get_default analysis "underused_format" (PStr "unknown")) ++ " format underused
- Top active competitor: " ++ py_str (dict_get_default analysis "top_spending_competitor" (PStr "unknown")) ++ "

KEY AI INSIGHTS:
" ++ insights_text ++ "

Write a brief with these exact sections:
1. TL;DR (2 sentences max — the most important thing that happened this week)
2. 🔥 What's Working for Competitors (2-3 specific observations)
3. 📉 What's Declining or Stopping (1-2 observations)
4. 💡 The Gap We Should Exploit (1 specific opportunity with rationale)
5. 🎯 3 Actions for This Week (numbered, specific, each one sentence)
6. One Surprise Finding (something unexpected that nobody would guess)

Keep total length under 400 words. Write like a smart colleague, not a consultant." in
    result ← _call_ai cfg lm prompt system 800;
    if negb (truthy (PStr result)) || str_contains "error" (lower result)
    then
      dominant ← io_lift (replace_receiver
                            (dict_get_default analysis "dominant_theme" (PStr "UGC testimonial")));
      pct_active ← io_lift (if truthy (PInt (Z.of_nat total)) then percent active total
                            else Ret 0%Z);
      io_ret ("# Weekly Competitive Intelligence Brief — " ++ brand_display ++ "
**Week of " ++ strftime "%B %d, %Y" now ++ "** | " ++ str_of_int (Z.of_nat total) ++ " ads tracked | " ++ str_of_int (Z.of_nat active) ++ " active

## TL;DR
Competitors are running " ++ str_of_int (Z.of_nat total) ++ " ads this week with " ++ py_str (dict_get_default analysis "top_spending_competitor" (PStr "multiple brands")) ++ " leading activity. The " ++ replace "_" " " dominant ++ " format is dominating across the competitive set.

## 🔥 What's Working for Competitors
- **UGC testimonials are everywhere** — " ++ str_of_int pct_active ++ "% of active ads use real customer stories, making authenticity the key creative strategy.
- **Long-running ads reveal hits** — " ++ str_of_int (Z.of_nat top_performers) ++ " ads have been running 30+ days, signaling competitors found winning creatives they're scaling hard.
- **" ++ py_str (dict_get_default analysis "top_spending_competitor" (PStr "Leading competitor")) ++ " is flooding feeds** with aggressive frequency across Facebook and Instagram simultaneously.

## 📉 What's Declining
- **Doctor/authority ads declining** — clinical tone is giving way to community storytelling as the dominant voice.

## 💡 The Gap to Exploit
**" ++ py_str (dict_get_default analysis "underused_format" (PStr "CAROUSEL")) ++ " ads are nearly absent** from competitors' mix. This is an immediate whitespace for " ++ brand_display ++ " to claim ownable creative territory.

## 🎯 3 Actions This Week
1. Launch 2 UGC-style testimonial ads to match competitor parity in the dominant format.
2. Create 1 " ++ py_str (dict_get_default analysis "underused_format" (PStr "carousel")) ++ " ad to exploit the creative gap — no competitor is doing this.
3. Study the 3 longest-running competitor ads and identify the hook that's keeping them alive.

## One Surprise Finding
" ++ str_of_int (Z.of_nat top_performers) ++ " ads have been running for over a month — at Meta's typical CPMs, that means these creatives have generated millions of impressions. Your competitors found something that works and are pouring budget into it. Find out what that hook is.

---
*Generated by Competitor Ad War Room • " ++ strftime "%Y-%m-%d %H:%M" now ++ "*")
    else
      io_ret ("# Weekly Competitive Intelligence Brief — " ++ brand_display ++ "
**Week of " ++ strftime "%B %d, %Y" now ++ "**

" ++ result ++ "

---
*Generated by Competitor Ad War Room • " ++ strftime "%Y-%m-%d %H:%M" now ++ "*").

End AiAnalyzer.

(** ** The sample generator ([backend/sample_data.py]) *)

Module SampleData.

(** One entry of [AD_TEMPLATES]: a theme with its ad bodies and titles. *)
Record template : Type := {
  theme : string;
  bodies : list string;
  titles : list string
}.

Definition BEBODYWISE_TEMPLATES : list template :=
  [ {| theme := "ugc_testimonial";
       bodies :=
         [ "I tried {product} for 3 months and honestly? My skin transformed 🌟 No filters needed anymore! #RealResults";
           "From acne-prone to glass skin in 60 days 😍 {product} changed everything. Link in bio!";
           "My mom asked me what I changed in my routine — I said {product} and nothing else 💕" ];
       titles :=
         [ "{brand}: Real Women, Real Results";
           "Science-Backed Skincare That Actually Works" ] |};
    {| theme := "doctor_authority";
       bodies :=
         [ "Recommended by 10,000+ dermatologists across India. {product} — because your skin deserves science.";
           "Dermatologist formulated. Clinically tested. {brand} — skincare you can trust.";
           "Dr. Priya Sharma: 'This is the only serum I recommend to all my patients for hyperpigmentation.'" ];
       titles :=
         [ "Clinically Proven Results";
           "Trusted by India's Top Dermatologists" ] |};
    {| theme := "offer_promo";
       bodies :=
         [ "🔥 FLAT 30% OFF on your first order! Use code GLOW30. Limited time only.";
           "Buy 2, Get 1 FREE on all {brand} bestsellers. Shop now before it's gone!";
           "₹499 starter kit — includes our top 3 sellers. Free shipping. 30-day return guarantee." ];
       titles :=
         [ "Limited Time Offer";
           "Today Only: 30% Off Sitewide" ] |};
    {| theme := "ingredient_science";
       bodies :=
         [ "Niacinamide 10% + Zinc 1% — the gold standard combo for oily, acne-prone skin. Now in India.";
           "2% Salicylic Acid. No SLS. No Parabens. Just science that works. That's {brand}.";
           "Our Vitamin C serum has 15% L-Ascorbic Acid — 3x more potent than the leading brand." ];
       titles :=
         [ "The Science of Beautiful Skin";
           "Ingredient Transparency Starts Here" ] |};
    {| theme := "community_story";
       bodies :=
         [ "1 million+ women in India have made the switch. Join the {brand} revolution 💪";
           "Our community of glowing women is growing every day. What's their secret? {product} 🌸";
           "From Bengaluru to Bhopal — women everywhere are choosing {brand}. Here's why." ];
       titles :=
         [ "Join 1M+ Women";
           "India's Most-Loved Skincare Brand" ] |} ].

Definition MANMATTERS_TEMPLATES : list template :=
  [ {| theme := "ugc_testimonial";
       bodies :=
         [ "I was losing 200+ strands a day. After 6 months on {product}, my barber noticed the difference 💪 #HairGrowth";
           "Honest review: {brand} actually worked for my hair fall. I was skeptical but the results speak for themselves.";
           "My confidence is back. {product} changed my hair and honestly my entire morning routine." ];
       titles :=
         [ "{brand}: Real Men, Real Results";
           "Hair Loss Fixed? Here's How." ] |};
    {| theme := "doctor_authority";
       bodies :=
         [ "Board-certified dermatologists + a custom formula = {product}. Because hair fall deserves real treatment.";
           "Dr. Rahul Verma explains why {brand}'s 3-step system outperforms everything else on the market.";
           "Science says: DHT is the #1 cause of male pattern baldness. {brand} blocks it at the root." ];
       titles :=
         [ "Doctor-Backed Hair Solutions";
           "Science of Hair Regrowth" ] |};
    {| theme := "offer_promo";
       bodies :=
         [ "🔥 Hair Kit + Free Consultation — just ₹999. 10,000 men already took this step.";
           "Festive Sale: 40% off our complete grooming range. Use GROOM40.";
           "First order? Get ₹500 off + FREE doctor consultation. Limited slots." ];
       titles :=
         [ "Flat 40% Off — Today Only";
           "Start Your Hair Regrowth Journey" ] |};
    {| theme := "before_after";
       bodies :=
         [ "Arjun's before/after at 90 days 📸 This is what consistency with {product} looks like.";
           "3 months. 90 photos. 1 incredible result. {brand} hair regrowth kit — results that show.";
           "Watch the transformation 👇 From thinning to thick — this is {product} working." ];
       titles :=
         [ "90 Days. Real Results.";
           "Before vs After: Judge for Yourself" ] |};
    {| theme := "community_story";
       bodies :=
         [ "500,000 men trust {brand} for their daily grooming. You should too.";
           "India's leading men's wellness platform — built by men, for men. That's {brand}.";
           "When 1 in 3 Indian men has hair loss, someone had to build a real solution. That's us." ];
       titles :=
         [ "5L+ Men Trust Us";
           "India's #1 Men's Wellness Brand" ] |} ].

Definition LITTLEJOYS_TEMPLATES : list template :=
  [ {| theme := "parent_reassurance";
       bodies :=
         [ "As a mom, I only give my kids the safest. {product} — zero sugar, all nutrients, zero compromise.";
           "Priya's son went from picky eater to finishing his plate 😊 The secret? {product} daily.";
           "3 kids, 1 solution. {brand} kids' nutrition — because every child deserves the best start." ];
       titles :=
         [ "{brand}: Trusted by 1M+ Indian Moms";
           "Nutrition Without Compromise" ] |};
    {| theme := "pediatrician_authority";
       bodies :=
         [ "Recommended by pediatricians across India. {product} — clinically proven for growing kids.";
           "Dr. Anjali Mehta, Pediatrician: '{brand} is what I give my own children every morning.'";
           "Formulated with ICMR guidelines for Indian children's nutritional needs. {brand}." ];
       titles :=
         [ "Pediatrician Recommended";
           "Built on Child Nutrition Science" ] |};
    {| theme := "offer_promo";
       bodies :=
         [ "Back to school special: 25% off on {brand} nutrition packs. Free shipping above ₹500!";
           "Subscribe & Save: Get {product} every month + save ₹200 + free nutritionist consult.";
           "Summer pack: 3 months of {product} at 30% off. Keep your kids healthy all season." ];
       titles :=
         [ "Back to School Sale!";
           "Subscribe & Save 25%" ] |};
    {| theme := "ingredient_science";
       bodies :=
         [ "DHA for brain. Calcium for bones. Iron for energy. All in one {product} serving for your child.";
           "No artificial colors. No preservatives. No palm oil. Just clean nutrition your kids will actually eat.";
           "Indian kids need 40% more iron than WHO guidelines. {brand} is built for Indian children." ];
       titles :=
         [ "Science-Backed Kids Nutrition";
           "Clean Label. Real Nutrition." ] |};
    {| theme := "ugc_testimonial";
       bodies :=
         [ "My 7-year-old asks for {product} every morning now 🙌 That's how I know it works. Thank you {brand}!";
           "From skinny to strong in 4 months — {product} + regular meals changed everything for my son.";
           "Rahul's pediatrician was shocked at his growth. We've been on {brand} for 6 months." ];
       titles :=
         [ "Real Kids. Real Growth.";
           "Parents Are Raving About This" ] |} ].

Definition AD_TEMPLATES : list (string * list template) :=
  [ ("bebodywise_competitors", BEBODYWISE_TEMPLATES);
    ("manmatters_competitors", MANMATTERS_TEMPLATES);
    ("littlejoys_competitors", LITTLEJOYS_TEMPLATES) ].

Definition MEDIA_TYPES : list string := [ "IMAGE"; "VIDEO"; "CAROUSEL" ].

Definition MEDIA_WEIGHTS : list Q := [ 40 # 100; 35 # 100; 25 # 100 ].

Definition PLATFORMS : list string := [ "facebook"; "instagram"; "messenger"; "audience_network" ].

Definition SPEND_RANGES : list pyval :=
  [ PDict [("lower_bound", PStr "100"); ("upper_bound", PStr "499")];
    PDict [("lower_bound", PStr "500"); ("upper_bound", PStr "999")];
    PDict [("lower_bound", PStr "1000"); ("upper_bound", PStr "4999")];
    PDict [("lower_bound", PStr "5000"); ("upper_bound", PStr "9999")];
    PDict [("lower_bound", PStr "10000"); ("upper_bound", PStr "49999")];
    PDict [("lower_bound", PStr "50000"); ("upper_bound", PStr "99999")] ].

Definition IMPRESSION_RANGES : list pyval :=
  [ PDict [("lower_bound", PStr "1000"); ("upper_bound", PStr "4999")];
    PDict [("lower_bound", PStr "5000"); ("upper_bound", PStr "9999")];
    PDict [("lower_bound", PStr "10000"); ("upper_bound", PStr "49999")];
    PDict [("lower_bound", PStr "50000"); ("upper_bound", PStr "99999")];
    PDict [("lower_bound", PStr "100000"); ("upper_bound", PStr "499999")];
    PDict [("lower_bound", PStr "500000"); ("upper_bound", PStr "999999")] ].

Definition PRODUCT_NAMES : list (string * list string) :=
  [ ("Pilgrim", ["Vitamin C Serum"; "SPF 50 Sunscreen"; "AHA BHA Peel"]);
    ("Mamaearth", ["Onion Hair Oil"; "Ubtan Face Pack"; "Vitamin C Face Wash"]);
    ("Dot & Key", ["Waterlight Gel Moisturizer"; "Vitamin C + E Serum"; "Retinol Night Cream"]);
    ("Plum Goodness", ["Green Tea Mattifying Moisturizer"; "E-Luminence Face Wash"; "Grape Seed & Sea Buckthorn Oil"]);
    ("Minimalist", ["10% Niacinamide + Zinc"; "2% Salicylic Acid"; "Alpha Arbutin 2%"]);
    ("WOW Skin Science", ["Apple Cider Vinegar Shampoo"; "Vitamin C Face Serum"; "Onion Black Seed Hair Oil"]);
    ("mCaffeine", ["Coffee Body Scrub"; "Caffeine Under Eye Cream"; "Coffee Face Wash"]);
    ("OZiva", ["Protein & Herbs Women"; "Plant-Based Biotin"; "Holistic Nutrition Shake"]);
    ("The Man Company", ["Beard Growth Kit"; "Anti-Acne Face Wash"; "Daily Sunscreen SPF 50"]);
    ("Bombay Shaving Company", ["Charcoal Face Wash"; "After Shave Balm"; "Hair Serum for Men"]);
    ("Beardo", ["Beard Growth Serum"; "Activated Charcoal Peel Mask"; "Anti Hair Fall Shampoo"]);
    ("USTRAA", ["Hair Growth Vitalizer"; "Activated Charcoal Face Scrub"; "Sport Deodorant"]);
    ("Traya Health", ["Hair Ras"; "Hair Vitamins"; "Scalp Oil Treatment Kit"]);
    ("Vedix", ["Customized Hair Oil"; "Herbal Shampoo Kit"; "Vedix Hair Regrowth Kit"]);
    ("BoldFit", ["Whey Protein Gold"; "Pre-Workout"; "Multivitamin for Men"]);
    ("Mamaearth Baby", ["Gentle Cleansing Baby Shampoo"; "Soothing Baby Lotion"; "Baby Massage Oil"]);
    ("Himalaya Baby", ["Himalaya Baby Cream"; "Gentle Baby Shampoo"; "Baby Body Lotion"]);
    ("Bey Bee", ["Organic Baby Powder"; "Natural Baby Wipes"; "Baby Rash Cream"]);
    ("Chicco India", ["Natural Feeling Bottle"; "Baby Snack Melties"; "Baby Oatmeal Cereal"]);
    ("Horlicks", ["Horlicks Junior"; "Mother's Horlicks"; "Horlicks Protein+"]);
    ("Complan", ["Complan NutriGro"; "Complan Chocolate"; "Complan Power of 2"]);
    ("Pediasure", ["PediaSure Vanilla"; "PediaSure Chocolate"; "PediaSure 5+ Immunity"]);
    ("The Moms Co", ["Natural Baby Lotion"; "Stretch Marks Oil"; "Baby Body Butter"]) ].

Definition DEFAULT_PRODUCTS : list string := [ "Premium Product"; "Best Seller"; "New Launch" ].

(** *** The [random] module

    The generator state is threaded through every draw.  The interface is
    the part of the module the generator calls: the index [choice] picks in
    a sequence of [n] items, the index [choices] picks under a list of
    weights, [randint(a, b)], the numerator over [2^53] of [random()], and
    [sample(population, k)]; each with the range its documentation gives. *)
Class Random (G : Type) : Type := {
  rand_index : nat -> G -> nat * G;
  rand_index_lt : forall n g, 0 < n -> (rand_index n g).1 < n;
  rand_weighted : list Q -> G -> nat * G;
  rand_weighted_lt : forall w g, w <> [] -> (rand_weighted w g).1 < length w;
  rand_int : Z -> Z -> G -> Z * G;
  rand_int_range : forall a b g, (a <= b)%Z -> (a <= (rand_int a b g).1 <= b)%Z;
  rand_unit : G -> Z * G;
  rand_unit_range : forall g, (0 <= (rand_unit g).1 < 2 ^ 53)%Z;
  rand_sample : list string -> nat -> G -> list string * G;
  rand_sample_length : forall l k g, k <= length l -> length (rand_sample l k g).1 = k
}.

(** A computation that draws: from a generator state to an outcome and the
    next state. *)
Definition rand (G A : Type) : Type := G -> outcome (A * G).

Definition rand_ret {G A : Type} (a : A) : rand G A := fun g => Ret (a, g).

Definition rand_raise {G A : Type} (e : exn) : rand G A := fun g => Raise e.

#[export] Instance rand_mbind {G : Type} : MBind (rand G) :=
  fun A B f m g =>
    match m g with
    | Ret (a, g') => f a g'
    | Raise e => Raise e
    end.

Section Draws.
Context {G : Type} `{Random G}.

(** [random.choice(seq)] *)
Definition choice {A : Type} (seq : list A) : rand G A :=
  fun g =>
    match seq with
    | [] => Raise IndexError
    | x :: _ => let '(i, g') := rand_index (length seq) g in Ret (nth i seq x, g')
    end.

(** [random.choices(population, weights=weights)[0]] *)
Definition choices_first {A : Type} (population : list A) (weights : list Q) : rand G A :=
  fun g =>
    match population with
    | [] => Raise IndexError
    | x :: _ =>
        if negb (length weights =? length population)%nat then Raise ValueError
        else let '(i, g') := rand_weighted weights g in Ret (nth i population x, g')
    end.

(** [random.randint(a, b)] *)
Definition randint (a b : Z) : rand G Z :=
  fun g => if (b <? a)%Z then Raise ValueError else Ret (rand_int a b g).

(** [random.random()], as the numerator [k] of [k / 2^53] *)
Definition random : rand G Z := fun g => Ret (rand_unit g).

(** [random.sample(population, k)] *)
Definition sample (population : list string) (k : Z) : rand G (list string) :=
  fun g =>
    if (k <? 0)%Z || (Z.of_nat (length population) <? k)%Z then Raise ValueError
    else Ret (rand_sample population (Z.to_nat k) g).

End Draws.

(** [x > 0.3] for [x = k / 2^53]: the literal [0.3] is the binary64 number
    [5404319552844595 / 2^54]. *)
Definition above_0_3 (k : Z) : bool := (5404319552844595 <? 2 * k)%Z.

(** *** [generate_sample_ads] *)

(** [AD_TEMPLATES[key]] *)
Definition templates_of (key : string) : list template :=
  default [] (snd <$> List.find (fun kv => String.eqb key kv.1) AD_TEMPLATES).

(** [{...}.get(competitor_name, ["Premium Product", "Best Seller", "New Launch"])] *)
Definition products_of (competitor_name : string) : list string :=
  default DEFAULT_PRODUCTS
    (snd <$> List.find (fun kv => String.eqb competitor_name kv.1) PRODUCT_NAMES).

Definition TIME_FORMAT : string := "%Y-%m-%dT%H:%M:%S+0000".

Section Generator.
Context `{Runtime} {G : Type} `{Random G}.

(** One turn of [for i in range(count)], with [now] the clock reading taken
    before the loop and [utcoffset] the host's offset from UTC in seconds. *)
Definition sample_ad (now utcoffset : Z) (competitor_name brand_key : string)
    (templates : list template) (product_names : list string) (days_range : Z)
    (i : nat) : rand G pydict :=
  template ← choice templates;
  product ← choice product_names;
  body_template ← choice (bodies template);
  title_template ← choice (titles template);
  let body := replace "{product}" product (replace "{brand}" competitor_name body_template) in
  let title := replace "{product}" product (replace "{brand}" competitor_name title_template) in
  media_type ← choices_first MEDIA_TYPES MEDIA_WEIGHTS;
  days_ago_start ← randint 1 days_range;
  let start_date := (now - timedelta_days days_ago_start)%Z in
  r ← random;
  let is_active := above_0_3 r in
  stop_date ← (if is_active then rand_ret None
               else d ← randint 7 45; rand_ret (Some (start_date + timedelta_days d)%Z));
  run_days ← (if is_active then rand_ret (days_of (now - start_date))
              else match stop_date with
                   | Some stop => rand_ret (days_of (stop - start_date))
                   | None => rand_raise TypeError
                   end);
  let is_top_performer := (30 <? run_days)%Z in
  num_platforms ← randint 1 3;
  platforms ← sample PLATFORMS num_platforms;
  spend ← choice SPEND_RANGES;
  impressions ← choice IMPRESSION_RANGES;
  let slug := replace " " "_" (lower competitor_name) in
  rand_ret
    [ ("id", PStr ("sample_" ++ slug ++ "_" ++ str_of_int (Z.of_nat i) ++ "_"
                   ++ str_of_int (Z.quot (timestamp utcoffset now) usec)));
      ("page_name", PStr competitor_name);
      ("page_id", PStr ("page_" ++ slug));
      ("ad_creation_time", PStr (strftime TIME_FORMAT start_date));
      ("ad_delivery_start_time", PStr (strftime TIME_FORMAT start_date));
      ("ad_delivery_stop_time",
       match stop_date with
       | Some stop => PStr (strftime TIME_FORMAT stop)
       | None => PNone
       end);
      ("ad_creative_bodies", PList [PStr body]);
      ("ad_creative_link_titles", PList [PStr title]);
      ("ad_creative_link_descriptions",
       PList [PStr ("Shop " ++ product ++ " by " ++ competitor_name
                    ++ " — Free shipping on orders above ₹499")]);
      ("media_type", PStr media_type);
      ("publisher_platforms", PList (PStr <$> platforms));
      ("spend", spend);
      ("impressions", impressions);
      ("languages", PList [PStr "en"]);
      ("ad_snapshot_url",
       PStr ("https://www.facebook.com/ads/archive/render_ad/?id=sample_"
             ++ str_of_int (Z.of_nat i)));
      ("_is_sample", PBool true);
      ("_theme", PStr (theme template));
      ("_is_active", PBool is_active);
      ("_run_days", PInt run_days);
      ("_is_top_performer", PBool is_top_performer);
      ("_brand_key", PStr brand_key);
      ("_competitor", PStr competitor_name);
      ("_product", PStr product) ].

(** The turns [i, i+1, ...] of the loop, appending each record. *)
Fixpoint generate_from (now utcoffset : Z) (competitor_name brand_key : string)
    (templates : list template) (product_names : list string) (days_range : Z)
    (i count : nat) : rand G (list pydict) :=
  match count with
  | O => rand_ret []
  | S rest =>
      ad ← sample_ad now utcoffset competitor_name brand_key templates product_names
             days_range i;
      ads ← generate_from now utcoffset competitor_name brand_key templates product_names
              days_range (S i) rest;
      rand_ret (ad :: ads)
  end.

Definition generate_sample_ads (now utcoffset : Z) (competitor_name brand_key : string)
    (count : nat) (days_range : Z) : rand G (list pydict) :=
  let templates :=
    if String.eqb brand_key "bebodywise" then templates_of "bebodywise_competitors"
    else if String.eqb brand_key "manmatters" then templates_of "manmatters_competitors"
    else templates_of "littlejoys_competitors" in
  let product_names := products_of competitor_name in
  generate_from now utcoffset competitor_name brand_key templates product_names
    days_range 0 count.

End Generator.

(** *** What the properties speak of *)

(** A generated record: its media type is one of the three formats; its
    start and stop times, activity flag, run-days and top-performer flag
    fit together as the generator computes them from the clock reading
    [now]. *)
Definition well_formed_sample `{Runtime} (now : Z) (ad : pydict) : Prop :=
  (exists m, dict_lookup ad "media_type" = Some (PStr m) /\ m ∈ MEDIA_TYPES) /\
  exists (start : Z) (stop : option Z) (run_days : Z),
    dict_lookup ad "ad_delivery_start_time" = Some (PStr (strftime TIME_FORMAT start)) /\
    dict_lookup ad "ad_delivery_stop_time"
      = Some (match stop with Some s => PStr (strftime TIME_FORMAT s) | None => PNone end) /\
    dict_lookup ad "_is_active"
      = Some (PBool (match stop with Some _ => false | None => true end)) /\
    run_days = days_of (match stop with Some s => s | None => now end - start) /\
    dict_lookup ad "_run_days" = Some (PInt run_days) /\
    (0 <= run_days)%Z /\
    dict_lookup ad "_is_top_performer" = Some (PBool (30 <? run_days)%Z).

End SampleData.

(** ** Concrete inputs used below *)

Module Examples.
Import Database.

Definition c1_first : pydict :=
  [("id", PStr "ad_1"); ("ad_body", PStr "Buy one get one"); ("_theme", PStr "offer_promo")].

Definition c1_second : pydict :=
  [("id", PStr "ad_1"); ("ad_body", PStr "Flat 40% off"); ("media_type", PStr "VIDEO")].

(** A host five and a half hours east of UTC, a query time, and an ad whose
    delivery started thirty days and one hour before that time. *)
Definition ist_offset : Z := 19800.

Definition query_time : Z := 1700000000 * usec.

Definition stale_ad : row :=
  {[ "id" := PStr "ad_old";
     "ad_delivery_start_time" := PTime (query_time - (30 * 86400 + 3600) * usec) ]}.

Definition last_30_days : get_ads_args :=
  {| brand_key := None; competitor_name := None; media_type := None; theme := None;
     is_active := None; days_back := Some 30%Z; limit := 200 |}.

(** A paused ad, to tell [is_active=False] from an omitted [is_active]. *)
Definition paused_ad : row := {[ "id" := PStr "ad_p"; "is_active" := PBool false ]}.

Definition running_ad : row := {[ "id" := PStr "ad_r"; "is_active" := PBool true ]}.

End Examples.

Module ClientExamples.
Import MetaApi.

(** An endpoint that answers every request with status 200 and the JSON
    document [null]. *)
Definition null_body_network : network := fun _ _ => HttpReply 200 "" (Json PNone).

End ClientExamples.

Module AnalyzerExamples.
Import AiAnalyzer.

(** A runtime for concrete runs: its JSON reader knows the three literal
    documents, its set iteration keeps the order given. *)
#[export] Instance plain_runtime : Runtime := {|
  repr_other := fun _ => "<object>";
  strftime := fun fmt t => str_of_int t;
  json_dumps := fun _ => Raise TypeError;
  json_loads := fun s =>
    if String.eqb s "null" then Ret PNone
    else if String.eqb s "true" then Ret (PBool true)
    else if String.eqb s "false" then Ret (PBool false)
    else Raise JSONDecodeError;
  json_loads_empty := eq_refl;
  set_iter := fun l => l;
  set_iter_perm := fun l => reflexivity l
|}.

Definition with_key : config := {| GEMINI_API_KEY := "key-123"; GEMINI_MODEL := "gemini-1.5-flash" |}.

Definition no_key : config := {| GEMINI_API_KEY := ""; GEMINI_MODEL := "gemini-1.5-flash" |}.

(** A model that answers every prompt with prose. *)
Definition chatty_model : language_model :=
  fun _ _ _ _ => Text "I could not classify this ad, sorry.".

(** An ad in the sample schema and one in the stored schema. *)
Definition sample_ad (theme media competitor : string) (long_running : bool) : pydict :=
  [ ("media_type", PStr media); ("_theme", PStr theme); ("_is_active", PBool true);
    ("_is_top_performer", PBool long_running); ("_competitor", PStr competitor) ].

Definition stored_ad (theme media competitor : string) : pydict :=
  [ ("competitor_name", PStr competitor); ("media_type", PStr media);
    ("theme", PStr theme); ("is_active", PBool false); ("is_top_performer", PBool false) ].

(** Ten ads, six of them with theme [offer_promo], in IMAGE and VIDEO only. *)
Definition batch_of_ten : list pydict :=
  [ sample_ad "ugc_testimonial" "IMAGE" "Pilgrim" false;
    sample_ad "offer_promo" "VIDEO" "Mamaearth" true;
    sample_ad "offer_promo" "IMAGE" "Mamaearth" false;
    stored_ad "doctor_authority" "IMAGE" "Minimalist";
    sample_ad "offer_promo" "VIDEO" "Pilgrim" true;
    stored_ad "offer_promo" "IMAGE" "Mamaearth";
    sample_ad "ugc_testimonial" "VIDEO" "Plum Goodness" false;
    sample_ad "offer_promo" "IMAGE" "Minimalist" true;
    stored_ad "before_after" "VIDEO" "Pilgrim";
    sample_ad "offer_promo" "IMAGE" "Mamaearth" false ].

End AnalyzerExamples.

Module GeneratorExamples.
Import SampleData.

(** A linear congruential generator over 64-bit states, as an instance of
    the random interface for concrete runs. *)
Definition lcg_next (g : Z) : Z :=
  ((g * 6364136223846793005 + 1442695040888963407) mod 2 ^ 64)%Z.

Definition lcg_below (n g : Z) : Z := ((g / 2 ^ 33) mod n)%Z.

#[export] Instance lcg_random : Random Z := {|
  rand_index := fun n g => (Z.to_nat (lcg_below (Z.of_nat n) g), lcg_next g);
  rand_index_lt := fun n g Hn =>
    ltac:(cbn [fst]; unfold lcg_below;
          pose proof (Z.mod_pos_bound (g / 2 ^ 33) (Z.of_nat n)); lia);
  rand_weighted := fun w g => (Z.to_nat (lcg_below (Z.of_nat (length w)) g), lcg_next g);
  rand_weighted_lt := fun w g Hw =>
    ltac:(cbn [fst]; unfold lcg_below; destruct w; [congruence|];
          match goal with |- context [Z.of_nat ?n] =>
            pose proof (Z.mod_pos_bound (g / 2 ^ 33) (Z.of_nat n)) end;
          cbn [length] in *; lia);
  rand_int := fun a b g => ((a + lcg_below (b - a + 1) g)%Z, lcg_next g);
  rand_int_range := fun a b g Hab =>
    ltac:(cbn [fst]; unfold lcg_below;
          pose proof (Z.mod_pos_bound (g / 2 ^ 33) (b - a + 1)); lia);
  rand_unit := fun g => (((g / 2 ^ 11) mod 2 ^ 53)%Z, lcg_next g);
  rand_unit_range := fun g =>
    ltac:(cbn [fst]; apply Z.mod_pos_bound; lia);
  rand_sample := fun l k g => (take k (rotate (Z.to_nat (lcg_below 4 g)) l), lcg_next g);
  rand_sample_length := fun l k g Hk =>
    ltac:(cbn [fst]; rewrite length_take, length_rotate; lia)
|}.

End GeneratorExamples.

(** * Properties *)

(** ** Values and counters *)

Module PyFacts.

Lemma pyval_eqb_eq : forall a b : pyval, pyval_eqb a b = true <-> a = b.
Proof.
  fix IH 1. intros a b.
  destruct a as [|x|n|s|t|l|d], b as [|y|m|s'|t'|l'|d'];
    cbn [pyval_eqb]; try (split; [discriminate | congruence]).
  - split; reflexivity.
  - rewrite Bool.eqb_true_iff. split; congruence.
  - rewrite Z.eqb_eq. split; congruence.
  - rewrite String.eqb_eq. split; congruence.
  - rewrite Z.eqb_eq. split; congruence.
  - revert l'. induction l as [|u l IHl]; intros [|v l'];
      try (split; [discriminate | congruence]).
    + split; reflexivity.
    + rewrite andb_true_iff, (IH u v), IHl. split.
      * intros [-> [= ->]]. reflexivity.
      * intros [= -> ->]. auto.
  - revert d'. induction d as [|[k u] d IHd]; intros [|[k' v] d'];
      try (split; [discriminate | congruence]).
    + split; reflexivity.
    + rewrite !andb_true_iff, String.eqb_eq, (IH u v), IHd. split.
      * intros [[-> ->] [= ->]]. reflexivity.
      * intros [= -> -> ->]. auto.
Qed.

Lemma str_app_assoc (a b c : string) : (a ++ b) ++ c = a ++ (b ++ c).
Proof.
  induction a as [|x a IH]; [reflexivity|].
  change (String x ((a ++ b) ++ c) = String x (a ++ (b ++ c))). f_equal. exact IH.
Qed.

(** Key comparison is equality of the normalised keys, hence an equivalence. *)
Lemma key_eqb_norm (a b : pyval) : key_eqb a b = true <-> key_norm a = key_norm b.
Proof. apply pyval_eqb_eq. Qed.

Lemma key_eqb_refl (a : pyval) : key_eqb a a = true.
Proof. apply key_eqb_norm. reflexivity. Qed.

Lemma key_eqb_sym (a b : pyval) : key_eqb a b = key_eqb b a.
Proof.
  destruct (key_eqb a b) eqn:E1, (key_eqb b a) eqn:E2; try reflexivity.
  - apply key_eqb_norm in E1. symmetry in E1. apply key_eqb_norm in E1. congruence.
  - apply key_eqb_norm in E2. symmetry in E2. apply key_eqb_norm in E2. congruence.
Qed.

Lemma key_eqb_trans (a b c : pyval) :
  key_eqb a b = true -> key_eqb b c = true -> key_eqb a c = true.
Proof. rewrite !key_eqb_norm. congruence. Qed.

(** Two keys equal to a third are equal; a key equal to one and not to
    the other tells them apart. *)
Lemma key_eqb_congr (a b c : pyval) : key_eqb a b = true -> key_eqb a c = key_eqb b c.
Proof.
  intros Hab. destruct (key_eqb b c) eqn:E.
  - eapply key_eqb_trans; eassumption.
  - destruct (key_eqb a c) eqn:E'; [|reflexivity].
    rewrite key_eqb_sym in Hab. rewrite <- E. symmetry.
    eapply key_eqb_trans; eassumption.
Qed.

Lemma key_eqb_str (s : string) (v : pyval) : key_eqb (PStr s) v = true <-> v = PStr s.
Proof.
  rewrite key_eqb_norm. destruct v as [|b|n|s'|t|l|d]; cbn; split; congruence.
Qed.

Lemma kd_add_count (c : kdict nat) (k k' : pyval) (n : nat) :
  kd_count (kd_add c k n) k' = kd_count c k' + (if key_eqb k' k then n else 0).
Proof.
  unfold kd_count. induction c as [|[k0 n0] c IH]; cbn [kd_add kd_lookup].
  - destruct (key_eqb k' k); cbn; lia.
  - destruct (key_eqb k k0) eqn:E; cbn [kd_lookup].
    + rewrite (key_eqb_sym k' k), (key_eqb_congr k k0 k' E), (key_eqb_sym k0 k').
      destruct (key_eqb k' k0); cbn; lia.
    + destruct (key_eqb k' k0) eqn:E'.
      * rewrite (key_eqb_congr k' k0 k E'), (key_eqb_sym k0 k), E. cbn. lia.
      * exact IH.
Qed.

Lemma kd_keys_is_Some {V : Type} (c : kdict V) (k : pyval) :
  existsb (key_eqb k) (kd_keys c) = true <-> is_Some (kd_lookup c k).
Proof.
  unfold kd_keys. induction c as [|[k0 v0] c IH]; cbn [fmap list_fmap existsb kd_lookup fst].
  - split; [discriminate | intros [? [=]]].
  - destruct (key_eqb k k0); cbn [orb]; [split; eauto | exact IH].
Qed.

Lemma kd_add_mem (c : kdict nat) (k k' : pyval) (n : nat) :
  existsb (key_eqb k') (kd_keys (kd_add c k n))
  = existsb (key_eqb k') (kd_keys c) || key_eqb k' k.
Proof.
  unfold kd_keys. induction c as [|[k0 n0] c IH]; cbn [kd_add fmap list_fmap existsb fst].
  - destruct (key_eqb k' k); reflexivity.
  - destruct (key_eqb k k0) eqn:E; cbn [fmap list_fmap existsb fst].
    + rewrite (key_eqb_sym k' k), (key_eqb_congr k k0 k' E), (key_eqb_sym k0 k').
      clear IH. destruct (key_eqb k' k0), (existsb (key_eqb k') c.*1); reflexivity.
    + rewrite IH. clear IH.
      destruct (key_eqb k' k0), (existsb (key_eqb k') c.*1), (key_eqb k' k); reflexivity.
Qed.

Lemma kd_lookup_elem {V : Type} (c : kdict V) (k : pyval) (v : V) :
  kd_lookup c k = Some v -> exists k0, (k0, v) ∈ c /\ key_eqb k k0 = true.
Proof.
  induction c as [|[k0 v0] c IH]; cbn [kd_lookup]; [discriminate|].
  destruct (key_eqb k k0) eqn:E.
  - intros [= ->]. exists k0. split; [apply elem_of_cons; auto | exact E].
  - intros Hl. destruct (IH Hl) as (k1 & Hin & Hk). exists k1.
    split; [apply elem_of_cons; auto | exact Hk].
Qed.

Lemma kd_distinct_lookup {V : Type} (c : kdict V) (k : pyval) (v : V) :
  kd_distinct c -> (k, v) ∈ c -> kd_lookup c k = Some v.
Proof.
  induction c as [|[k0 v0] c IH]; cbn [kd_distinct kd_lookup].
  - intros _ Hin. apply elem_of_nil in Hin. contradiction.
  - intros [Hk0 Hd] Hin. apply elem_of_cons in Hin as [[= -> ->]|Hin].
    + rewrite key_eqb_refl. reflexivity.
    + destruct (key_eqb k k0) eqn:E; [|auto].
      exfalso. specialize (IH Hd Hin).
      assert (existsb (key_eqb k) (kd_keys c) = true) as Hex
        by (apply kd_keys_is_Some; eauto).
      assert (existsb (key_eqb k0) (kd_keys c) = true) as Hex0.
      { apply existsb_exists in Hex as (k1 & Hin1 & Hk1). apply existsb_exists.
        exists k1. split; [exact Hin1|].
        rewrite <- (key_eqb_congr k k0 k1 E). exact Hk1. }
      apply kd_keys_is_Some in Hex0 as [? Hs]. congruence.
Qed.

Lemma kd_add_lookup_None (c : kdict nat) (k k' : pyval) (n : nat) :
  kd_lookup c k' = None -> key_eqb k' k = false -> kd_lookup (kd_add c k n) k' = None.
Proof.
  intros Hn Hk. destruct (kd_lookup (kd_add c k n) k') eqn:E; [|reflexivity].
  assert (existsb (key_eqb k') (kd_keys (kd_add c k n)) = true) as Hex
    by (apply kd_keys_is_Some; eauto).
  rewrite kd_add_mem, Hk, orb_false_r in Hex.
  apply kd_keys_is_Some in Hex as [? Hs]. congruence.
Qed.

Lemma kd_add_distinct (c : kdict nat) (k : pyval) (n : nat) :
  kd_distinct c -> kd_distinct (kd_add c k n).
Proof.
  induction c as [|[k0 n0] c IH]; cbn [kd_add kd_distinct]; [auto|].
  intros [Hk0 Hd]. destruct (key_eqb k k0) eqn:E; cbn [kd_distinct]; [auto|].
  split; [|auto]. apply kd_add_lookup_None; [exact Hk0|].
  rewrite key_eqb_sym. exact E.
Qed.

Lemma kd_add_keys (c : kdict nat) (k k' : pyval) (n : nat) :
  k' ∈ kd_keys (kd_add c k n) -> k' ∈ kd_keys c \/ k' = k.
Proof.
  unfold kd_keys. induction c as [|[k0 n0] c IH]; cbn [kd_add fmap list_fmap fst].
  - rewrite list_elem_of_singleton. auto.
  - destruct (key_eqb k k0); cbn [fmap list_fmap fst]; rewrite !elem_of_cons; [tauto|].
    intros [->|Hin]; [auto|]. destruct (IH Hin); auto.
Qed.

Lemma kd_add_nonempty (c : kdict nat) (k : pyval) (n : nat) : kd_add c k n <> [].
Proof. destruct c as [|[k0 n0] c]; cbn; [discriminate|]. destruct (key_eqb k k0); discriminate. Qed.

End PyFacts.

(** ** Persistence layer *)

Module DatabaseFacts.
Import Database Examples.

Lemma sql_eqb_str (v : pyval) (s : string) :
  sql_eqb v (PStr s) = true <-> v = PStr s.
Proof.
  destruct v as [|b|n|s'|t|l|d]; unfold sql_eqb, key_eqb; simpl;
    try (split; [discriminate | congruence]).
  rewrite String.eqb_eq. split; congruence.
Qed.

Lemma find_by_id_Some (t : table) (i : pyval) (n : nat) (r : row) :
  find_by_id t i = Some (n, r) ->
  t !! n = Some r /\ sql_eqb (attr r "id") i = true.
Proof.
  revert n. induction t as [|x t IH]; intros n; cbn [find_by_id]; [discriminate|].
  destruct (sql_eqb (attr x "id") i) eqn:E.
  - intros [= <- <-]. auto.
  - destruct (find_by_id t i) as [[m r']|] eqn:F; [|discriminate].
    intros [= <- <-]. apply IH. reflexivity.
Qed.

Lemma find_by_id_None (t : table) (i : pyval) :
  find_by_id t i = None -> rows_with_id t i = [].
Proof.
  induction t as [|x t IH]; cbn [find_by_id]; [reflexivity|].
  destruct (sql_eqb (attr x "id") i) eqn:E; [discriminate|].
  destruct (find_by_id t i) as [[m r']|]; [discriminate|].
  intros _. unfold rows_with_id in *. cbn [List.filter]. rewrite E. auto.
Qed.


(** *** Dict and attribute-store lemmas *)

Lemma dict_lookup_None (d : pydict) (k : string) :
  k ∉ d.*1 -> dict_lookup d k = None.
Proof.
  induction d as [|[k0 v0] d IH]; cbn [dict_lookup]; [reflexivity|].
  intros Hk. rewrite fmap_cons, not_elem_of_cons in Hk. destruct Hk as [Hne Hk].
  destruct (String.eqb_spec k k0) as [->|_]; [contradiction|]. auto.
Qed.

Lemma foldl_setattr_lookup (l : pydict) (r : row) (k : string) :
  NoDup (l.*1) ->
  foldl (fun r kv => setattr r kv.1 kv.2) r l !! k =
  match dict_lookup l k with Some v => Some v | None => r !! k end.
Proof.
  revert r. induction l as [|[k0 v0] l IH]; intros r Hnd; cbn [foldl dict_lookup]; [reflexivity|].
  rewrite fmap_cons, NoDup_cons in Hnd. destruct Hnd as [Hk0 Hnd].
  rewrite IH by assumption. cbn [fst snd]. unfold setattr.
  destruct (String.eqb_spec k k0) as [->|Hne].
  - rewrite (dict_lookup_None l k0 Hk0). apply lookup_insert_eq.
  - destruct (dict_lookup l k); [reflexivity|]. apply lookup_insert_ne. congruence.
Qed.

Lemma assign_known_filter (d : pydict) (r : row) :
  assign_known r d =
  foldl (fun r kv => setattr r kv.1 kv.2) r (List.filter (fun kv => hasattr kv.1) d).
Proof.
  unfold assign_known. revert r.
  induction d as [|[k0 v0] d IH]; intros r; cbn [foldl List.filter]; [reflexivity|].
  cbn [fst snd]. destruct (hasattr k0); cbn [foldl]; apply IH.
Qed.

Lemma dict_lookup_filter (d : pydict) (k : string) :
  dict_lookup (List.filter (fun kv => hasattr kv.1) d) k =
  if hasattr k then dict_lookup d k else None.
Proof.
  induction d as [|[k0 v0] d IH]; cbn [List.filter dict_lookup fst].
  - destruct (hasattr k); reflexivity.
  - destruct (hasattr k0) eqn:H0; cbn [dict_lookup].
    + destruct (String.eqb_spec k k0) as [->|_]; [rewrite H0; reflexivity | exact IH].
    + destruct (String.eqb_spec k k0) as [->|_]; [rewrite H0 in *; exact IH | exact IH].
Qed.

Lemma filter_keys_NoDup (d : pydict) :
  NoDup (d.*1) -> NoDup ((List.filter (fun kv => hasattr kv.1) d).*1).
Proof.
  induction d as [|[k0 v0] d IH]; cbn [List.filter fst]; [auto|].
  rewrite fmap_cons, NoDup_cons. intros [Hk Hnd].
  destruct (hasattr k0); [|auto].
  rewrite fmap_cons, NoDup_cons. split; [|auto].
  intros Hin. apply Hk. cbn [fst] in *.
  apply list_elem_of_fmap in Hin as [[k v] [-> Hin]].
  apply list_elem_of_In, filter_In in Hin as [Hin _].
  apply list_elem_of_fmap. exists (k, v). split; [reflexivity|].
  apply list_elem_of_In. exact Hin.
Qed.

(** The attributes of a row after the update loop. *)
Lemma assign_known_lookup (d : pydict) (r : row) (k : string) :
  dict_wf d ->
  assign_known r d !! k =
  if hasattr k
  then match dict_lookup d k with Some v => Some v | None => r !! k end
  else r !! k.
Proof.
  intros Hwf. rewrite assign_known_filter.
  rewrite foldl_setattr_lookup by (apply filter_keys_NoDup; exact Hwf).
  rewrite dict_lookup_filter. destruct (hasattr k); reflexivity.
Qed.

(** The attributes of a freshly constructed record. *)
Lemma construct_lookup (d : pydict) (k : string) :
  dict_wf d ->
  construct d !! k = if hasattr k then dict_lookup d k else None.
Proof.
  intros Hwf. unfold construct.
  rewrite foldl_setattr_lookup by (apply filter_keys_NoDup; exact Hwf).
  rewrite dict_lookup_filter, lookup_empty.
  destruct (hasattr k); [destruct (dict_lookup d k)|]; reflexivity.
Qed.

Lemma column_defaults_known (utcnow : Z) (k : string) :
  hasattr k = false -> column_defaults utcnow !! k = None.
Proof.
  intros Hk. unfold column_defaults.
  repeat (rewrite lookup_insert_ne; [|intros <-; discriminate Hk]).
  rewrite lookup_singleton_ne; [reflexivity|intros <-; discriminate Hk].
Qed.

(** *** The primary key under update and insert *)

Lemma sql_eqb_str_l (v : pyval) (s : string) :
  sql_eqb (PStr s) v = true <-> v = PStr s.
Proof.
  destruct v as [|b|n|s'|t|l|d]; unfold sql_eqb, key_eqb; simpl;
    try (split; [discriminate | congruence]).
  rewrite String.eqb_eq. split; congruence.
Qed.

Lemma rows_with_id_app (t1 t2 : table) (i : pyval) :
  rows_with_id (t1 ++ t2)%list i = (rows_with_id t1 i ++ rows_with_id t2 i)%list.
Proof. apply List.filter_app. Qed.

(** Replacing a row by one with the same id does not change which
    positions a key selects. *)
Lemma rows_with_id_insert_length (t : table) (n : nat) (r r' : row) (j : pyval) :
  t !! n = Some r ->
  attr r' "id" = attr r "id" ->
  length (rows_with_id (<[n := r']> t) j) = length (rows_with_id t j).
Proof.
  intros Hn Hid.
  rewrite <- (take_drop_middle t n r Hn) at 2.
  rewrite insert_take_drop by (eapply lookup_lt_Some; exact Hn).
  rewrite !rows_with_id_app, !length_app.
  unfold rows_with_id. cbn [List.filter]. rewrite Hid.
  destruct (sql_eqb (attr r "id") j); reflexivity.
Qed.

Lemma rows_with_id_insert (t : table) (n : nat) (r r' : row) (i : pyval) :
  pk_unique t ->
  t !! n = Some r ->
  sql_eqb (attr r "id") i = true ->
  attr r' "id" = attr r "id" ->
  rows_with_id (<[n := r']> t) i = [r'].
Proof.
  intros Hpk Hn Hr Hid.
  specialize (Hpk i).
  rewrite <- (take_drop_middle t n r Hn) in Hpk.
  rewrite insert_take_drop by (eapply lookup_lt_Some; exact Hn).
  rewrite !rows_with_id_app in *. rewrite !length_app in Hpk.
  unfold rows_with_id in *. cbn [List.filter] in *. rewrite Hid, Hr in *.
  cbn [length] in Hpk.
  destruct (List.filter _ (take n t)) as [|? ?]; cbn [length] in Hpk; [|lia].
  destruct (List.filter _ (drop (S n) t)) as [|? ?]; cbn [length] in Hpk; [|lia].
  reflexivity.
Qed.

Lemma pk_unique_insert (t : table) (n : nat) (r r' : row) :
  pk_unique t -> t !! n = Some r -> attr r' "id" = attr r "id" ->
  pk_unique (<[n := r']> t).
Proof.
  intros Hpk Hn Hid j. rewrite (rows_with_id_insert_length t n r r' j Hn Hid). apply Hpk.
Qed.

Lemma pk_unique_snoc (t : table) (r : row) (s : string) :
  pk_unique t -> attr r "id" = PStr s -> rows_with_id t (PStr s) = [] ->
  pk_unique (t ++ [r]).
Proof.
  intros Hpk Hid Hnone j. rewrite rows_with_id_app, length_app.
  unfold rows_with_id at 2. cbn [List.filter]. rewrite Hid.
  destruct (sql_eqb (PStr s) j) eqn:E.
  - apply sql_eqb_str_l in E as ->. rewrite Hnone. reflexivity.
  - specialize (Hpk j). cbn [length]. lia.
Qed.

(** One call of [upsert_ad] with a string id: it returns, keeps the primary
    key unique, leaves the returned record as the only row of that id, writes
    every known field of [ad_data], and takes no other key: the remaining
    attributes are those of the row found (update) or unset (insert). *)
Lemma upsert_ad_spec (utcnow : Z) (db : table) (ad_data : pydict) (i : string) :
  pk_unique db ->
  dict_wf ad_data ->
  dict_lookup ad_data "id" = Some (PStr i) ->
  exists db' r,
    upsert_ad utcnow db ad_data = Ret (db', r) /\
    pk_unique db' /\
    rows_with_id db' (PStr i) = [r] /\
    (forall k v, hasattr k = true -> dict_lookup ad_data k = Some v -> r !! k = Some v) /\
    (forall k, hasattr k = false ->
       r !! k = match find_by_id db (PStr i) with
                | Some (_, existing) => existing !! k
                | None => None
                end).
Proof.
  intros Hpk Hwf Hid. unfold upsert_ad, dict_item. rewrite Hid. cbn [bind].
  destruct (find_by_id db (PStr i)) as [[n existing]|] eqn:F.
  - apply find_by_id_Some in F as [Hn He].
    assert (attr (assign_known existing ad_data) "id" = attr existing "id") as Hsame.
    { apply sql_eqb_str in He. rewrite He. unfold attr.
      rewrite assign_known_lookup by exact Hwf.
      change (hasattr "id") with true. rewrite Hid. reflexivity. }
    eexists _, _. split; [reflexivity|].
    split; [eapply pk_unique_insert; eassumption|].
    split; [eapply rows_with_id_insert; eassumption|].
    split.
    + intros k v Hk Hv. rewrite assign_known_lookup by exact Hwf. rewrite Hk, Hv. reflexivity.
    + intros k Hk. rewrite assign_known_lookup by exact Hwf. rewrite Hk. reflexivity.
  - apply find_by_id_None in F.
    assert (attr (construct ad_data) "id" = PStr i) as Hcid.
    { unfold attr. rewrite construct_lookup by exact Hwf.
      change (hasattr "id") with true. rewrite Hid. reflexivity. }
    unfold insert_row. rewrite Hcid.
    assert (attr (construct ad_data ∪ column_defaults utcnow) "id" = PStr i) as Hsid.
    { unfold attr in *. rewrite lookup_union.
      destruct (construct ad_data !! "id") as [v|] eqn:E; cbn in Hcid; [|discriminate].
      destruct (column_defaults utcnow !! "id"); cbn; exact Hcid. }
    eexists _, _. split; [reflexivity|].
    split; [eapply pk_unique_snoc; eassumption|].
    split.
    { rewrite rows_with_id_app, F. unfold rows_with_id. cbn [List.filter].
      rewrite Hsid. unfold sql_eqb, key_eqb. cbn. rewrite String.eqb_refl. reflexivity. }
    split.
    + intros k v Hk Hv. rewrite lookup_union, construct_lookup by exact Hwf.
      rewrite Hk, Hv. destruct (column_defaults utcnow !! k); reflexivity.
    + intros k Hk. rewrite lookup_union, construct_lookup by exact Hwf.
      rewrite Hk, column_defaults_known by exact Hk. reflexivity.
Qed.

Lemma find_by_id_single (t : table) (i : pyval) (r : row) :
  rows_with_id t i = [r] -> exists n, find_by_id t i = Some (n, r).
Proof.
  induction t as [|x t IH]; unfold rows_with_id; cbn [List.filter find_by_id]; [discriminate|].
  destruct (sql_eqb (attr x "id") i).
  - intros [= -> _]. eauto.
  - intros H. destruct (IH H) as [n ->]. eauto.
Qed.



(** *** [get_ads]: order, bound and filters *)

Lemma key_ltb_ge_trans (a b c : option Z) :
  key_ltb a b = false -> key_ltb b c = false -> key_ltb a c = false.
Proof.
  destruct a as [x|], b as [y|], c as [z|]; cbn; try congruence.
  rewrite !Z.ltb_ge. lia.
Qed.

Lemma key_ltb_lt_ge (a b : option Z) : key_ltb a b = true -> key_ltb b a = false.
Proof.
  destruct a as [x|], b as [y|]; cbn; try congruence.
  rewrite Z.ltb_lt, Z.ltb_ge. lia.
Qed.

Lemma elem_of_insert_desc (x r : row) (l : table) :
  x ∈ insert_desc r l <-> x = r \/ x ∈ l.
Proof.
  induction l as [|y l IH]; cbn [insert_desc].
  - rewrite list_elem_of_singleton, elem_of_nil. tauto.
  - destruct (key_ltb _ _); rewrite !elem_of_cons; [rewrite IH|]; tauto.
Qed.

Lemma elem_of_order_by (x : row) (q : table) :
  x ∈ order_by_start_desc q <-> x ∈ q.
Proof.
  unfold order_by_start_desc. induction q as [|y q IH]; cbn [foldr]; [reflexivity|].
  rewrite elem_of_insert_desc, IH, elem_of_cons. reflexivity.
Qed.

Lemma insert_desc_sorted (r : row) (l : table) :
  StronglySorted start_ge l -> StronglySorted start_ge (insert_desc r l).
Proof.
  induction l as [|y l IH]; cbn [insert_desc]; intros Hs.
  - repeat constructor.
  - apply StronglySorted_inv in Hs as [Hl Hy].
    destruct (key_ltb _ _) eqn:E.
    + constructor; [auto|].
      apply Forall_forall. intros z Hz. apply elem_of_insert_desc in Hz as [->|Hz].
      * apply key_ltb_lt_ge, E.
      * rewrite Forall_forall in Hy. auto.
    + constructor; [constructor; assumption|].
      constructor; [exact E|].
      eapply Forall_impl; [exact Hy|]. intros z Hz.
      unfold start_ge in *. eapply key_ltb_ge_trans; eassumption.
Qed.

Lemma order_by_sorted (q : table) : StronglySorted start_ge (order_by_start_desc q).
Proof.
  unfold order_by_start_desc. induction q as [|y q IH]; cbn [foldr]; [constructor|].
  apply insert_desc_sorted, IH.
Qed.

Lemma order_by_length (q : table) : length (order_by_start_desc q) = length q.
Proof.
  assert (forall r l, length (insert_desc r l) = S (length l)) as Hins.
  { intros r l. induction l as [|y l IH]; cbn [insert_desc]; [reflexivity|].
    destruct (key_ltb _ _); cbn [length]; [rewrite IH|]; reflexivity. }
  unfold order_by_start_desc. induction q as [|y q IH]; cbn [foldr length]; [reflexivity|].
  rewrite Hins, IH. reflexivity.
Qed.

Lemma sql_limit_sorted (n : Z) (q : table) :
  StronglySorted start_ge q -> StronglySorted start_ge (sql_limit n q).
Proof.
  unfold sql_limit. destruct (n <? 0)%Z; [auto|].
  intros Hs. rewrite <- (take_drop (Z.to_nat n) q) in Hs.
  apply StronglySorted_app in Hs. tauto.
Qed.

Lemma elem_of_sql_limit (x : row) (n : Z) (q : table) : x ∈ sql_limit n q -> x ∈ q.
Proof.
  unfold sql_limit. destruct (n <? 0)%Z; [auto|].
  intros Hx. rewrite <- (take_drop (Z.to_nat n) q). apply elem_of_app. auto.
Qed.

Lemma elem_of_filter_str (x : row) (col : string) (arg : option string) (q : table) :
  x ∈ filter_str col arg q -> x ∈ q.
Proof.
  unfold filter_str. destruct arg as [s|]; [|auto].
  destruct (truthy (PStr s)); [|auto].
  rewrite !list_elem_of_In, filter_In. tauto.
Qed.

Lemma elem_of_filter_days (x : row) (utcnow off : Z) (arg : option Z) (q : table) :
  x ∈ filter_days utcnow off arg q -> x ∈ q.
Proof.
  unfold filter_days. destruct arg as [d|]; [|auto].
  destruct (truthy (PInt d)); [|auto].
  rewrite !list_elem_of_In, filter_In. tauto.
Qed.

(** The result of [get_ads] never starts later further down the list. *)
Lemma get_ads_sorted (utcnow off : Z) (db : table) (a : get_ads_args) :
  StronglySorted start_ge (get_ads utcnow off db a).
Proof. unfold get_ads. apply sql_limit_sorted, order_by_sorted. Qed.

(** A non-negative [limit] bounds the number of rows returned. *)
Lemma get_ads_capped (utcnow off : Z) (db : table) (a : get_ads_args) :
  (0 <= limit a)%Z -> (Z.of_nat (length (get_ads utcnow off db a)) <= limit a)%Z.
Proof.
  intros Hl. unfold get_ads, sql_limit.
  destruct (limit a <? 0)%Z eqn:E; [apply Z.ltb_lt in E; lia|].
  rewrite length_take. lia.
Qed.

(** With a non-zero [days_back], every returned ad started at or after the
    cutoff the code computes. *)
Lemma get_ads_since_cutoff (utcnow off : Z) (db : table) (a : get_ads_args) (d : Z) (r : row) :
  days_back a = Some d -> d <> 0%Z ->
  r ∈ get_ads utcnow off db a ->
  exists t, time_key r "ad_delivery_start_time" = Some t /\
            (utcnow - off * usec - d * 86400 * usec <= t)%Z.
Proof.
  intros Hd Hnz Hr. unfold get_ads in Hr.
  apply elem_of_sql_limit in Hr. rewrite elem_of_order_by in Hr.
  rewrite Hd in Hr. unfold filter_days in Hr. cbn [truthy] in Hr.
  destruct (Z.eqb_spec d 0) as [->|_]; [contradiction|]. cbn [negb] in Hr.
  apply list_elem_of_In, filter_In in Hr as [_ Hs].
  unfold started_since in Hs.
  destruct (time_key r "ad_delivery_start_time") as [t|]; [|discriminate].
  exists t. split; [reflexivity|].
  apply Z.leb_le in Hs. unfold cutoff_of, utcfromtimestamp, timestamp in Hs. exact Hs.
Qed.

(** On a host at or west of UTC the cutoff is no earlier than [days_back]
    days before the query time, so no older ad is returned. *)
Lemma get_ads_days_back_utc_host (utcnow off : Z) (db : table) (a : get_ads_args) (d : Z) (r : row) :
  (off <= 0)%Z ->
  days_back a = Some d -> d <> 0%Z ->
  r ∈ get_ads utcnow off db a ->
  exists t, time_key r "ad_delivery_start_time" = Some t /\
            (utcnow - d * 86400 * usec <= t)%Z.
Proof.
  intros Hoff Hd Hnz Hr.
  destruct (get_ads_since_cutoff utcnow off db a d r Hd Hnz Hr) as (t & Ht & Hle).
  exists t. split; [exact Ht|]. unfold usec in *. lia.
Qed.

(** C6, at the failing input.  On a host east of UTC the cutoff slips back
    by the UTC offset: queried with [days_back=30] on a host at UTC+05:30, an
    ad that started thirty days and one hour before the query time is
    returned. *)
Theorem get_ads_days_back_east_of_utc :
  get_ads query_time ist_offset [stale_ad] last_30_days = [stale_ad] /\
  time_key stale_ad "ad_delivery_start_time"
    = Some (query_time - (30 * 86400 + 3600) * usec)%Z /\
  (query_time - (30 * 86400 + 3600) * usec < query_time - 30 * 86400 * usec)%Z.
Proof.
  split; [|split].
  - vm_compute. reflexivity.
  - vm_compute. reflexivity.
  - vm_compute. reflexivity.
Qed.

(** C10. A falsy filter argument of [get_ads] is no filter: the empty string
    for [brand_key], [competitor_name], [media_type] or [theme], and
    [days_back=0], give the result of omitting the argument.  [is_active] is
    tested against [None] instead: [is_active=False] keeps exactly the rows
    whose [is_active] equals false, which differs from omitting it. *)
Theorem get_ads_falsy_filter_is_omitted
    (utcnow off : Z) (db : table) (bk cn mt th : option string) (ia : option bool)
    (d : option Z) (lim : Z) :
  get_ads utcnow off db
    {| brand_key := Some ""; competitor_name := cn; media_type := mt; theme := th;
       is_active := ia; days_back := d; limit := lim |}
  = get_ads utcnow off db
    {| brand_key := None; competitor_name := cn; media_type := mt; theme := th;
       is_active := ia; days_back := d; limit := lim |} /\
  get_ads utcnow off db
    {| brand_key := bk; competitor_name := Some ""; media_type := mt; theme := th;
       is_active := ia; days_back := d; limit := lim |}
  = get_ads utcnow off db
    {| brand_key := bk; competitor_name := None; media_type := mt; theme := th;
       is_active := ia; days_back := d; limit := lim |} /\
  get_ads utcnow off db
    {| brand_key := bk; competitor_name := cn; media_type := Some ""; theme := th;
       is_active := ia; days_back := d; limit := lim |}
  = get_ads utcnow off db
    {| brand_key := bk; competitor_name := cn; media_type := None; theme := th;
       is_active := ia; days_back := d; limit := lim |} /\
  get_ads utcnow off db
    {| brand_key := bk; competitor_name := cn; media_type := mt; theme := Some "";
       is_active := ia; days_back := d; limit := lim |}
  = get_ads utcnow off db
    {| brand_key := bk; competitor_name := cn; media_type := mt; theme := None;
       is_active := ia; days_back := d; limit := lim |} /\
  get_ads utcnow off db
    {| brand_key := bk; competitor_name := cn; media_type := mt; theme := th;
       is_active := ia; days_back := Some 0%Z; limit := lim |}
  = get_ads utcnow off db
    {| brand_key := bk; competitor_name := cn; media_type := mt; theme := th;
       is_active := ia; days_back := None; limit := lim |} /\
  (forall r,
     r ∈ get_ads utcnow off db
           {| brand_key := bk; competitor_name := cn; media_type := mt; theme := th;
              is_active := Some false; days_back := d; limit := lim |} ->
     sql_eqb (attr r "is_active") (PBool false) = true) /\
  get_ads utcnow off [paused_ad; running_ad]
    {| brand_key := None; competitor_name := None; media_type := None; theme := None;
       is_active := Some false; days_back := None; limit := 200 |} = [paused_ad] /\
  get_ads utcnow off [paused_ad; running_ad]
    {| brand_key := None; competitor_name := None; media_type := None; theme := None;
       is_active := None; days_back := None; limit := 200 |} = [paused_ad; running_ad].
Proof.
  repeat split; try reflexivity.
  intros r Hr. unfold get_ads in Hr. cbn [is_active] in Hr.
  apply elem_of_sql_limit in Hr. rewrite elem_of_order_by in Hr.
  apply elem_of_filter_days in Hr. unfold filter_active in Hr.
  apply list_elem_of_In, filter_In in Hr as [_ Hr]. exact Hr.
Qed.

(** *** [get_stats] *)

Lemma kd_set_keys {V : Type} (d : kdict V) (k k' : pyval) (v : V) :
  k' ∈ kd_keys (kd_set d k v) -> k' ∈ kd_keys d \/ k' = k.
Proof.
  unfold kd_keys. induction d as [|[k0 v0] d IH]; cbn [kd_set].
  - rewrite fmap_cons, elem_of_cons. cbn. rewrite elem_of_nil. tauto.
  - destruct (key_eqb k k0); rewrite !fmap_cons, !elem_of_cons; cbn [fst]; [tauto|].
    intros [->|H]; [tauto|]. destruct (IH H); tauto.
Qed.

Lemma collect_keys_truthy (rows acc : kdict nat) (k : pyval) :
  (forall k', k' ∈ kd_keys acc -> truthy k' = true) ->
  k ∈ kd_keys (foldl (fun d row => if truthy row.1 then kd_set d row.1 row.2 else d) acc rows) ->
  truthy k = true.
Proof.
  revert acc. induction rows as [|[k0 c0] rows IH]; intros acc Hacc; cbn [foldl fst snd].
  - apply Hacc.
  - apply IH. destruct (truthy k0) eqn:E; [|exact Hacc].
    intros k' Hk'. apply kd_set_keys in Hk' as [Hk'| ->]; auto.
Qed.

Lemma collect_nonempty_keys (rows : kdict nat) (k : pyval) :
  k ∈ kd_keys (collect_nonempty rows) -> truthy k = true.
Proof.
  unfold collect_nonempty. apply collect_keys_truthy.
  intros k' Hk'. unfold kd_keys in Hk'. cbn in Hk'. apply elem_of_nil in Hk'. contradiction.
Qed.

Lemma count_where_none (col : string) (v : pyval) (q : table) :
  (forall r, r ∈ q -> sql_eqb (attr r col) v = false) -> count_where col v q = 0.
Proof.
  unfold count_where. induction q as [|x q IH]; intros Hq; cbn [List.filter]; [reflexivity|].
  rewrite (Hq x) by (apply elem_of_cons; auto).
  apply IH. intros r Hr. apply Hq, elem_of_cons. auto.
Qed.

(** C7. [get_stats] without a brand filter: [media_breakdown] has exactly the
    keys IMAGE, VIDEO and CAROUSEL, each with the number of ads of that media
    type, which is 0 when there is none; every key of [theme_breakdown] and
    of [competitor_breakdown] is a non-empty value; and [top_performers] is at
    most [total_ads]. *)
Theorem get_stats_breakdowns (db : table) :
  kd_keys (media_breakdown (get_stats db None))
    = [PStr "IMAGE"; PStr "VIDEO"; PStr "CAROUSEL"] /\
  (forall mt, mt ∈ MEDIA ->
     kd_lookup (media_breakdown (get_stats db None)) (PStr mt)
       = Some (count_where "media_type" (PStr mt) db)) /\
  (forall mt, mt ∈ MEDIA ->
     (forall r, r ∈ db -> sql_eqb (attr r "media_type") (PStr mt) = false) ->
     kd_lookup (media_breakdown (get_stats db None)) (PStr mt) = Some 0) /\
  (forall k, k ∈ kd_keys (theme_breakdown (get_stats db None)) ->
     truthy k = true /\ k <> PNone /\ k <> PStr "") /\
  (forall k, k ∈ kd_keys (competitor_breakdown (get_stats db None)) ->
     truthy k = true /\ k <> PNone /\ k <> PStr "") /\
  top_performers (get_stats db None) <= total_ads (get_stats db None).
Proof.
  assert (forall mt, mt ∈ MEDIA ->
            kd_lookup (media_breakdown (get_stats db None)) (PStr mt)
            = Some (count_where "media_type" (PStr mt) db)) as Hmedia.
  { intros mt Hmt. unfold MEDIA in Hmt. rewrite !elem_of_cons, elem_of_nil in Hmt.
    destruct Hmt as [->|[->|[->|[]]]]; reflexivity. }
  assert (forall k, truthy k = true -> truthy k = true /\ k <> PNone /\ k <> PStr "") as Hne.
  { intros k Hk. split; [exact Hk|]. split; intros ->; discriminate Hk. }
  split; [reflexivity|].
  split; [exact Hmedia|].
  split.
  { intros mt Hmt Hnone. rewrite (Hmedia mt Hmt). f_equal. apply count_where_none, Hnone. }
  split; [intros k Hk; apply Hne; eapply collect_nonempty_keys; exact Hk|].
  split; [intros k Hk; apply Hne; eapply collect_nonempty_keys; exact Hk|].
  cbn [get_stats top_performers total_ads filter_str]. unfold count_where.
  apply List.filter_length_le.
Qed.

End DatabaseFacts.

(** ** Ad Library client *)

Module MetaApiFacts.
Import MetaApi ClientExamples.

Section WithRuntime.
Context `{Runtime}.

(** The body of [search_ads] once the parameters are built. *)
Lemma search_ads_unfold (c : MetaAdLibraryClient) (net : network) (a : search_args)
    (params : pydict) :
  build_params a = Ret params ->
  search_ads c net a =
  match net (GRAPH_API_BASE ++ "/ads_archive") params with
  | NoReply msg =>
      ([Sleep (rate_limit_sleep c);
        HttpGet (GRAPH_API_BASE ++ "/ads_archive") (session_params c ++ params)%list 30],
       Ret (error_result (PStr msg)))
  | HttpReply status msg b =>
      ([Sleep (rate_limit_sleep c);
        HttpGet (GRAPH_API_BASE ++ "/ads_archive") (session_params c ++ params)%list 30],
       if (400 <=? status)%Z && (status <? 600)%Z then Ret (error_result (PStr msg))
       else match b with
            | NotJson m => Ret (error_result (PStr m))
            | Json result =>
                match py_in "error" result with
                | Ret true => bind (py_getitem result "error") (fun e => Ret (error_result e))
                | Ret false => Ret result
                | Raise e => Raise e
                end
            end)
  end.
Proof.
  intros Hp. unfold search_ads. rewrite Hp.
  unfold mbind, io_mbind, io_lift, io_bind, io_try, sleep, io_emit, session_get, io_ret.
  cbn [app].
  destruct (net _ params) as [msg|status msg b]; cbn.
  - reflexivity.
  - destruct ((400 <=? status)%Z && (status <? 600)%Z); cbn; [reflexivity|].
    destruct b as [m|result]; cbn; [reflexivity|].
    destruct result as [|x|n|s|t|l|d]; cbn; try reflexivity.
    + destruct (str_contains "error" s); reflexivity.
    + destruct (existsb _ l); reflexivity.
    + unfold dict_has, dict_item. destruct (dict_lookup d "error"); reflexivity.
Qed.

(** A transport failure, an error status and an undecodable body are all
    absorbed into the error result. *)
Lemma search_ads_absorbs_request_failures (c : MetaAdLibraryClient) (net : network)
    (a : search_args) (params : pydict) :
  build_params a = Ret params ->
  match net (GRAPH_API_BASE ++ "/ads_archive") params with
  | NoReply msg => (search_ads c net a).2 = Ret (error_result (PStr msg))
  | HttpReply status msg (NotJson m) =>
      (search_ads c net a).2 =
      Ret (error_result (PStr (if (400 <=? status)%Z && (status <? 600)%Z then msg else m)))
  | HttpReply status msg (Json _) =>
      (400 <= status < 600)%Z -> (search_ads c net a).2 = Ret (error_result (PStr msg))
  end.
Proof.
  intros Hp. rewrite (search_ads_unfold c net a params Hp).
  destruct (net _ params) as [msg|status msg [m|v]]; cbn [snd].
  - reflexivity.
  - destruct ((400 <=? status)%Z && (status <? 600)%Z); reflexivity.
  - intros [Hlo Hhi].
    apply Z.leb_le in Hlo. apply Z.ltb_lt in Hhi. rewrite Hlo, Hhi. reflexivity.
Qed.

(** A successful reply whose body is a JSON object: the object itself, or
    the error result carrying its [error] member. *)
Lemma search_ads_object_reply (c : MetaAdLibraryClient) (net : network)
    (a : search_args) (params : pydict) (status : Z) (msg : string) (d : pydict) :
  build_params a = Ret params ->
  net (GRAPH_API_BASE ++ "/ads_archive") params = HttpReply status msg (Json (PDict d)) ->
  ~ (400 <= status < 600)%Z ->
  (search_ads c net a).2 =
  Ret (match dict_lookup d "error" with
       | Some err => error_result err
       | None => PDict d
       end).
Proof.
  intros Hp Hnet Hst. rewrite (search_ads_unfold c net a params Hp), Hnet. cbn [snd].
  destruct ((400 <=? status)%Z && (status <? 600)%Z) eqn:E.
  - apply andb_true_iff in E as [Hlo Hhi].
    apply Z.leb_le in Hlo. apply Z.ltb_lt in Hhi. lia.
  - cbn. unfold dict_has, dict_item. destruct (dict_lookup d "error"); reflexivity.
Qed.

(** [search_ads] sleeps the client's delay right before its one request. *)
Lemma search_ads_trace (c : MetaAdLibraryClient) (net : network) (a : search_args) :
  match build_params a with
  | Ret params =>
      (search_ads c net a).1 =
      [Sleep (rate_limit_sleep c);
       HttpGet (GRAPH_API_BASE ++ "/ads_archive") (session_params c ++ params)%list 30]
  | Raise e => search_ads c net a = ([], Raise e)
  end.
Proof.
  destruct (build_params a) as [params|e] eqn:Hp.
  - rewrite (search_ads_unfold c net a params Hp).
    destruct (net _ params); reflexivity.
  - unfold search_ads. rewrite Hp. reflexivity.
Qed.

Lemma search_ads_rate_limited (tok : string) (net : network) (a : search_args) :
  rate_limited 1 (search_ads (init tok) net a).1 = true.
Proof.
  pose proof (search_ads_trace (init tok) net a) as Ht.
  destruct (build_params a); rewrite Ht; reflexivity.
Qed.

(** C2, at the failing input.  The endpoint answers 200 with the JSON
    document [null]: the membership test on the decoded body raises
    [TypeError], which is no [RequestException], and [search_ads] lets it
    through to its caller. *)
Theorem search_ads_raises_on_null_body (tok : string) :
  (search_ads (init tok) null_body_network default_search).2 = Raise TypeError.
Proof. reflexivity. Qed.

End WithRuntime.

Lemma get_page_id_trace (c : MetaAdLibraryClient) (net : network) (page_name : string) :
  (get_page_id c net page_name).1 =
  [Sleep (rate_limit_sleep c);
   HttpGet (GRAPH_API_BASE ++ "/pages/search")
     (session_params c ++
      [("q", PStr page_name); ("fields", PStr "id,name,verification_status")])%list 20].
Proof.
  unfold get_page_id.
  unfold mbind, io_mbind, io_lift, io_bind, io_try, sleep, io_emit, session_get, io_ret.
  cbn [app].
  destruct (net _ _) as [msg|status msg b]; cbn; [reflexivity|].
  destruct ((400 <=? status)%Z && (status <? 600)%Z); cbn; [reflexivity|].
  destruct b as [m|data]; cbn; [reflexivity|].
  destruct data as [|x|n|s|t|l|d]; cbn; try reflexivity.
  destruct (truthy (dict_get d "data")); cbn; [|reflexivity].
  destruct (dict_item d "data") as [pages|e]; cbn; [|reflexivity].
  destruct (py_first pages) as [page|e]; cbn; [|reflexivity].
  destruct (py_getitem page "id"); reflexivity.
Qed.

Lemma get_page_id_rate_limited (tok : string) (net : network) (page_name : string) :
  rate_limited 1 (get_page_id (init tok) net page_name).1 = true.
Proof. rewrite get_page_id_trace. reflexivity. Qed.

(** [get_page_id] never raises. *)
Lemma get_page_id_returns (c : MetaAdLibraryClient) (net : network) (page_name : string) :
  returns (get_page_id c net page_name).2.
Proof.
  unfold get_page_id, io_try.
  match goal with |- context [match ?m with _ => _ end] => destruct m as [t [v|e]] end;
    cbn; eexists; reflexivity.
Qed.

Lemma validate_token_trace (c : MetaAdLibraryClient) (net : network) :
  (validate_token c net).1 =
  [HttpGet (GRAPH_API_BASE ++ "/me") (session_params c ++ [("fields", PStr "id,name")])%list 10].
Proof.
  unfold validate_token.
  unfold mbind, io_mbind, io_lift, io_bind, io_try, session_get, io_ret.
  destruct (net _ _) as [msg|status msg b]; cbn; [reflexivity|].
  destruct b as [m|data]; cbn; [reflexivity|].
  destruct (py_in "id" data); reflexivity.
Qed.

(** C8, at the failing input.  [validate_token] issues its request to the
    identity endpoint with no sleep before it: its trace breaks the
    rate-limit discipline that the traces of [search_ads] and [get_page_id]
    keep. *)
Theorem validate_token_skips_delay (tok : string) (net : network) :
  (validate_token (init tok) net).1 =
    [HttpGet (GRAPH_API_BASE ++ "/me")
       [("access_token", PStr tok); ("fields", PStr "id,name")] 10] /\
  rate_limited 1 (validate_token (init tok) net).1 = false.
Proof. rewrite validate_token_trace. split; reflexivity. Qed.

End MetaApiFacts.

(** ** Analysis engine *)

Module AiAnalyzerFacts.
Import AiAnalyzer AnalyzerExamples PyFacts.

(** *** Counters *)

Lemma count_keys_count (key : pydict -> pyval) (ads : list pydict) (c : kdict nat) (k : pyval) :
  kd_count (count_keys key c ads) k
  = kd_count c k + length (List.filter (fun ad => key_eqb k (key ad)) ads).
Proof.
  unfold count_keys. revert c.
  induction ads as [|ad ads IH]; intros c; cbn [foldl List.filter length]; [lia|].
  rewrite IH, kd_add_count. destruct (key_eqb k (key ad)); cbn [length]; lia.
Qed.

Lemma count_keys_distinct (key : pydict -> pyval) (ads : list pydict) (c : kdict nat) :
  kd_distinct c -> kd_distinct (count_keys key c ads).
Proof.
  unfold count_keys. revert c. induction ads as [|ad ads IH]; intros c Hc; cbn [foldl]; [auto|].
  apply IH, kd_add_distinct, Hc.
Qed.

Lemma count_keys_keys (key : pydict -> pyval) (ads : list pydict) (c : kdict nat) (k : pyval) :
  k ∈ kd_keys (count_keys key c ads) -> k ∈ kd_keys c \/ exists ad, ad ∈ ads /\ k = key ad.
Proof.
  unfold count_keys. revert c. induction ads as [|ad ads IH]; intros c; cbn [foldl]; [auto|].
  intros Hk. destruct (IH _ Hk) as [Hk'|(ad' & Hin & ->)].
  - apply kd_add_keys in Hk' as [Hk'| ->]; [auto|].
    right. exists ad. split; [apply elem_of_cons; auto | reflexivity].
  - right. exists ad'. split; [apply elem_of_cons; auto | reflexivity].
Qed.

Lemma count_keys_mem (key : pydict -> pyval) (ads : list pydict) (c : kdict nat) (x : pyval) :
  existsb (key_eqb x) (kd_keys (count_keys key c ads))
  = existsb (key_eqb x) (kd_keys c) || existsb (fun ad => key_eqb x (key ad)) ads.
Proof.
  unfold count_keys. revert c.
  induction ads as [|ad ads IH]; intros c; cbn [foldl existsb].
  - rewrite orb_false_r. reflexivity.
  - rewrite IH, kd_add_mem, orb_assoc. reflexivity.
Qed.

Lemma count_keys_nonempty (key : pydict -> pyval) (ads : list pydict) (c : kdict nat) :
  ads <> [] -> count_keys key c ads <> [].
Proof.
  assert (forall ads c, c <> [] -> count_keys key c ads <> []) as Hkeep.
  { clear. unfold count_keys. induction ads as [|ad ads IH]; intros c Hc; cbn [foldl]; [auto|].
    apply IH, kd_add_nonempty. }
  destruct ads as [|ad ads]; [congruence|]. intros _.
  unfold count_keys. cbn [foldl]. apply Hkeep, kd_add_nonempty.
Qed.

(** *** [most_common(1)] *)

Lemma most_common1_elem (c : kdict nat) (k : pyval) (n : nat) :
  most_common1 c = Some (k, n) -> (k, n) ∈ c.
Proof.
  revert k n. induction c as [|[k0 n0] c IH]; intros k n; cbn [most_common1]; [discriminate|].
  destruct (most_common1 c) as [[k1 n1]|].
  - destruct (n0 <? n1)%nat; intros [= <- <-]; apply elem_of_cons; auto.
  - intros [= <- <-]. apply elem_of_cons. auto.
Qed.

Lemma most_common1_max (c : kdict nat) (k k' : pyval) (n n' : nat) :
  most_common1 c = Some (k, n) -> (k', n') ∈ c -> n' <= n.
Proof.
  revert k n. induction c as [|[k0 n0] c IH]; intros k n; cbn [most_common1]; [discriminate|].
  intros Hm Hin. apply elem_of_cons in Hin as [[= -> ->]|Hin].
  - destruct (most_common1 c) as [[k1 n1]|].
    + destruct (Nat.ltb_spec n0 n1); injection Hm as <- <-; lia.
    + injection Hm as <- <-. lia.
  - destruct (most_common1 c) as [[k1 n1]|] eqn:E.
    + specialize (IH k1 n1 eq_refl Hin).
      destruct (Nat.ltb_spec n0 n1); injection Hm as <- <-; lia.
    + destruct c as [|[k2 n2] c]; [apply elem_of_nil in Hin; contradiction|].
      cbn [most_common1] in E. destruct (most_common1 c) as [[k3 n3]|]; [|discriminate].
      destruct (n2 <? n3)%nat; discriminate.
Qed.

Lemma most_common1_Some (c : kdict nat) : c <> [] -> exists kn, most_common1 c = Some kn.
Proof.
  destruct c as [|[k0 n0] c]; [congruence|]. intros _. cbn [most_common1].
  destruct (most_common1 c) as [[k1 n1]|]; [destruct (n0 <? n1)%nat|]; eauto.
Qed.

(** The entry [most_common(1)] picks from the counter of a batch: its count
    is the number of ads with that key, and no key has more. *)
Lemma most_common1_count_keys (key : pydict -> pyval) (ads : list pydict) :
  ads <> [] ->
  exists k n,
    most_common1 (count_keys key [] ads) = Some (k, n) /\
    (exists ad, ad ∈ ads /\ k = key ad) /\
    n = length (List.filter (fun ad => key_eqb k (key ad)) ads) /\
    forall k', length (List.filter (fun ad => key_eqb k' (key ad)) ads) <= n.
Proof.
  intros Hne.
  destruct (most_common1_Some (count_keys key [] ads)) as [[k n] Hm];
    [apply count_keys_nonempty, Hne|].
  exists k, n. split; [exact Hm|].
  pose proof (most_common1_elem _ _ _ Hm) as Hin.
  assert (kd_distinct (count_keys key [] ads)) as Hd by (apply count_keys_distinct; exact I).
  split; [|split].
  - assert (k ∈ kd_keys (count_keys key [] ads)) as Hk.
    { unfold kd_keys. apply list_elem_of_fmap. exists (k, n). auto. }
    apply count_keys_keys in Hk as [Hk|Hk]; [|exact Hk].
    apply elem_of_nil in Hk. contradiction.
  - pose proof (count_keys_count key ads [] k) as Hc.
    unfold kd_count in Hc at 1. rewrite (kd_distinct_lookup _ _ _ Hd Hin) in Hc.
    exact Hc.
  - intros k'. pose proof (count_keys_count key ads [] k') as Hc.
    unfold kd_count in Hc at 1. cbn [kd_count kd_lookup default] in Hc.
    destruct (kd_lookup (count_keys key [] ads) k') as [n'|] eqn:E.
    + apply kd_lookup_elem in E as (k0 & Hin0 & _).
      pose proof (most_common1_max _ _ _ _ _ Hm Hin0). cbn in Hc. unfold kd_count in Hc. cbn in Hc. lia.
    + cbn in Hc. unfold kd_count in Hc. cbn in Hc. lia.
Qed.

(** *** The tally loop *)

Lemma tally_ads_analyzable (ads : list pydict) (t : tally) :
  Forall (fun ad => analyzable ad = true) ads ->
  tally_ads t ads =
  Ret {| themes := count_keys theme_of (themes t) ads;
         media_types := count_keys media_of (media_types t) ads;
         competitors := count_keys competitor_of (competitors t) ads;
         active_count :=
           active_count t
           + length (List.filter (fun ad => flag ad "is_active" "_is_active") ads);
         top_performer_count :=
           top_performer_count t
           + length (List.filter
                       (fun ad => flag ad "is_top_performer" "_is_top_performer") ads) |}.
Proof.
  revert t. induction ads as [|ad ads IH]; intros t Hall.
  - destruct t. cbn. rewrite !Nat.add_0_r. reflexivity.
  - apply Forall_cons in Hall as [Had Hall]. cbn [tally_ads].
    unfold tally_ad, counter_incr. unfold analyzable in Had.
    destruct (theme_of ad) as [| | |s| | |] eqn:Eth; try discriminate.
    apply andb_true_iff in Had as [Hm Hc]. rewrite Hm, Hc.
    cbn [hashable mbind outcome_mbind bind].
    rewrite (IH _ Hall). cbn [themes media_types competitors active_count top_performer_count].
    unfold count_keys. cbn [foldl List.filter]. rewrite Eth.
    destruct (flag ad "is_active" "_is_active"),
             (flag ad "is_top_performer" "_is_top_performer");
      cbn [length]; f_equal; f_equal; try reflexivity; lia.
Qed.

(** Two different themes share no ad. *)
Lemma theme_count_disjoint (ads : list pydict) (a b : pyval) :
  key_eqb a b = false -> theme_count ads a + theme_count ads b <= length ads.
Proof.
  intros Hab. unfold theme_count.
  induction ads as [|ad ads IH]; cbn [List.filter length]; [lia|].
  destruct (key_eqb a (theme_of ad)) eqn:Ea, (key_eqb b (theme_of ad)) eqn:Eb;
    cbn [length]; try lia.
  rewrite key_eqb_sym in Eb. rewrite (key_eqb_trans a (theme_of ad) b Ea Eb) in Hab.
  discriminate.
Qed.

(** *** The underused format *)

Section WithRuntime.
Context `{Runtime}.

Lemma unused_formats_spec (ads : list pydict) (f : string) :
  f ∈ unused_formats (count_keys media_of [] ads) <-> f ∈ ALL_FORMATS /\ observed ads f = false.
Proof.
  unfold unused_formats, observed.
  rewrite list_elem_of_In, filter_In, <- list_elem_of_In, count_keys_mem.
  cbn [kd_keys fmap list_fmap existsb orb]. rewrite negb_true_iff. reflexivity.
Qed.

Lemma pick_underused_spec (ads : list pydict) :
  let und := pick_underused (count_keys media_of [] ads) in
  und ∈ ALL_FORMATS /\
  ((exists f, f ∈ ALL_FORMATS /\ observed ads f = false) -> observed ads und = false) /\
  (observed ads "IMAGE" = true -> observed ads "VIDEO" = true -> und = "CAROUSEL").
Proof.
  cbn zeta. unfold pick_underused.
  pose proof (set_iter_perm (unused_formats (count_keys media_of [] ads))) as Hperm.
  destruct (set_iter (unused_formats (count_keys media_of [] ads))) as [|f rest] eqn:Eit.
  - apply Permutation_nil_l in Hperm.
    split; [unfold ALL_FORMATS; set_solver|]. split; [|reflexivity].
    intros (f & Hf & Hobs).
    assert (f ∈ unused_formats (count_keys media_of [] ads)) as Hin
      by (apply unused_formats_spec; auto).
    rewrite <- Hperm in Hin. apply elem_of_nil in Hin. contradiction.
  - assert (f ∈ unused_formats (count_keys media_of [] ads)) as Hin.
    { rewrite <- Hperm. apply elem_of_cons. auto. }
    apply unused_formats_spec in Hin as [Hall Hobs].
    split; [exact Hall|]. split; [intros _; exact Hobs|].
    intros Hi Hv. unfold ALL_FORMATS in Hall.
    rewrite !elem_of_cons, elem_of_nil in Hall.
    destruct Hall as [->|[->|[->|[]]]]; congruence.
Qed.

End WithRuntime.

Lemma percent_returns (count total : nat) :
  total <> 0 -> exists p, percent count total = Ret p.
Proof.
  intros Ht. unfold percent, int_truediv.
  destruct (Z.eqb_spec (Z.of_nat total) 0) as [E|_]; [lia|].
  cbn [bind]. eauto.
Qed.



(** The percentage the model computes is the one binary64 arithmetic
    gives, checked on every count of every batch of up to 40 ads and on a
    few larger batches. *)
Lemma percent_is_binary64 :
  forallb (fun total =>
    forallb (fun count =>
      match percent count total, b64_percent count total with
      | Ret p, Some q => (p =? q)%Z
      | _, _ => false
      end) (seq 0 (S total))) (seq 1 40) = true /\
  forallb (fun ct : nat * nat =>
      match percent ct.1 ct.2, b64_percent ct.1 ct.2 with
      | Ret p, Some q => (p =? q)%Z
      | _, _ => false
      end) [(1, 200); (29, 200); (115, 200); (575, 1000); (145, 1000); (999, 1000);
            (1, 3000); (2343, 4686); (1234, 4321)] = true.
Proof. split; vm_compute; reflexivity. Qed.

(** *** [classify_ad] *)

Lemma strip_fence_empty : strip_fence "" = "".
Proof. reflexivity. Qed.



(** *** [generate_weekly_brief] *)

(** C9. With an empty ad list [generate_weekly_brief] returns a text that
    contains the phrase [No competitor ad data available for this period],
    and its trace is empty: no request goes to the language model. *)
Theorem generate_weekly_brief_no_ads `{Runtime} (cfg : config) (lm : language_model)
    (now : Z) (brand_key brand_display : string) (analysis : pydict) :
  exists text before after,
    generate_weekly_brief cfg lm now brand_key brand_display [] analysis = ([], Ret text) /\
    text = before ++ "No competitor ad data available for this period" ++ after.
Proof.
  exists ("# Weekly Brief — " ++ brand_display ++ "

No competitor ad data available for this period."),
         ("# Weekly Brief — " ++ brand_display ++ "

"), ".".
  split; [reflexivity|].
  rewrite !str_app_assoc. reflexivity.
Qed.

End AiAnalyzerFacts.

(** ** Sample generator *)

Module SampleDataFacts.
Import SampleData GeneratorExamples.

Lemma days_of_timedelta (d : Z) : days_of (timedelta_days d) = d.
Proof. unfold days_of, timedelta_days, usec. apply Z.div_mul. lia. Qed.

(** Every template pool is non-empty and each of its templates has bodies
    and titles; every competitor has products. *)
Lemma template_pools_filled :
  Forall (fun kv => kv.2 <> [] /\
                    Forall (fun t => bodies t <> [] /\ titles t <> []) kv.2) AD_TEMPLATES.
Proof. repeat constructor; discriminate. Qed.

Lemma products_of_filled (competitor_name : string) : products_of competitor_name <> [].
Proof.
  unfold products_of.
  destruct (List.find _ PRODUCT_NAMES) as [[k l]|] eqn:E; cbn; [|discriminate].
  apply find_some in E as [Hin _].
  assert (Forall (fun kv : string * list string => kv.2 <> []) PRODUCT_NAMES) as Hall
    by (repeat constructor; discriminate).
  rewrite Forall_forall in Hall. apply (Hall (k, l)). apply list_elem_of_In. exact Hin.
Qed.

Section WithRandom.
Context `{Runtime} {G : Type} `{Random G}.

Lemma rand_bind_ret {A B : Type} (m : rand G A) (f : A -> rand G B) (g g' : G) (a : A) :
  m g = Ret (a, g') -> (m ≫= f) g = f a g'.
Proof. intros E. unfold mbind, rand_mbind. rewrite E. reflexivity. Qed.

Lemma choice_ret {A : Type} (seq : list A) (g : G) :
  seq <> [] -> exists x g', choice seq g = Ret (x, g') /\ x ∈ seq.
Proof.
  intros Hne. destruct seq as [|x0 seq]; [congruence|]. unfold choice.
  pose proof (rand_index_lt (length (x0 :: seq)) g ltac:(cbn; lia)) as Hlt.
  destruct (rand_index (length (x0 :: seq)) g) as [i g'] eqn:E. cbn [fst] in Hlt.
  exists (nth i (x0 :: seq) x0), g'. split; [reflexivity|].
  apply list_elem_of_In, nth_In. exact Hlt.
Qed.

Lemma choices_first_media (g : G) :
  exists m g', choices_first MEDIA_TYPES MEDIA_WEIGHTS g = Ret (m, g') /\ m ∈ MEDIA_TYPES.
Proof.
  unfold choices_first. cbn [MEDIA_TYPES MEDIA_WEIGHTS length Nat.eqb negb].
  pose proof (rand_weighted_lt MEDIA_WEIGHTS g ltac:(discriminate)) as Hlt.
  fold MEDIA_WEIGHTS. fold MEDIA_TYPES.
  destruct (rand_weighted MEDIA_WEIGHTS g) as [i g'] eqn:E. cbn [fst] in Hlt.
  exists (nth i MEDIA_TYPES "IMAGE"), g'. split; [reflexivity|].
  apply list_elem_of_In, nth_In. exact Hlt.
Qed.

Lemma randint_ret (a b : Z) (g : G) :
  (a <= b)%Z -> exists v g', randint a b g = Ret (v, g') /\ (a <= v <= b)%Z.
Proof.
  intros Hab. unfold randint.
  destruct (Z.ltb_spec b a) as [Hlt|_]; [lia|].
  pose proof (rand_int_range a b g Hab) as Hr.
  destruct (rand_int a b g) as [v g'] eqn:E. cbn [fst] in Hr. eauto.
Qed.

Lemma sample_ret (population : list string) (k : Z) (g : G) :
  (0 <= k <= Z.of_nat (length population))%Z ->
  exists l g', sample population k g = Ret (l, g').
Proof.
  intros Hk. unfold sample.
  destruct (Z.ltb_spec k 0) as [Hlt|_]; [lia|].
  destruct (Z.ltb_spec (Z.of_nat (length population)) k) as [Hlt|_]; [lia|].
  cbn [orb]. destruct (rand_sample population (Z.to_nat k) g) as [l g']. eauto.
Qed.

(** One turn of the loop returns a well-formed record. *)
Lemma sample_ad_spec (now utcoffset : Z) (competitor_name brand_key : string)
    (templates : list template) (product_names : list string) (days_range : Z)
    (i : nat) (g : G) :
  templates <> [] ->
  Forall (fun t => bodies t <> [] /\ titles t <> []) templates ->
  product_names <> [] ->
  (1 <= days_range)%Z ->
  exists ad g',
    sample_ad now utcoffset competitor_name brand_key templates product_names days_range i g
      = Ret (ad, g') /\
    well_formed_sample now ad.
Proof.
  intros Hts Hfilled Hps Hdays. unfold sample_ad.
  destruct (choice_ret templates g Hts) as (t & g1 & E1 & Ht).
  rewrite (rand_bind_ret _ _ _ _ _ E1).
  rewrite Forall_forall in Hfilled. destruct (Hfilled t Ht) as [Hbodies Htitles].
  destruct (choice_ret product_names g1 Hps) as (product & g2 & E2 & _).
  rewrite (rand_bind_ret _ _ _ _ _ E2).
  destruct (choice_ret (bodies t) g2 Hbodies) as (body & g3 & E3 & _).
  rewrite (rand_bind_ret _ _ _ _ _ E3).
  destruct (choice_ret (titles t) g3 Htitles) as (ttl & g4 & E4 & _).
  rewrite (rand_bind_ret _ _ _ _ _ E4).
  destruct (choices_first_media g4) as (m & g5 & E5 & Hm).
  rewrite (rand_bind_ret _ _ _ _ _ E5).
  destruct (randint_ret 1 days_range g5 Hdays) as (d & g6 & E6 & Hd).
  rewrite (rand_bind_ret _ _ _ _ _ E6).
  assert (random g6 = Ret (rand_unit g6)) as E7 by reflexivity.
  destruct (rand_unit g6) as [r g7] eqn:Er.
  rewrite (rand_bind_ret _ _ _ _ _ E7).
  destruct (above_0_3 r) eqn:Eact.
  - rewrite (rand_bind_ret _ _ g7 g7 None eq_refl).
    rewrite (rand_bind_ret _ _ g7 g7 (days_of (now - (now - timedelta_days d))) eq_refl).
    destruct (randint_ret 1 3 g7 ltac:(lia)) as (np & g8 & E8 & Hnp).
    rewrite (rand_bind_ret _ _ _ _ _ E8).
    destruct (sample_ret PLATFORMS np g8 ltac:(cbn; lia)) as (pl & g9 & E9).
    rewrite (rand_bind_ret _ _ _ _ _ E9).
    destruct (choice_ret SPEND_RANGES g9 ltac:(discriminate)) as (sp & g10 & E10 & _).
    rewrite (rand_bind_ret _ _ _ _ _ E10).
    destruct (choice_ret IMPRESSION_RANGES g10 ltac:(discriminate)) as (im & g11 & E11 & _).
    rewrite (rand_bind_ret _ _ _ _ _ E11).
    eexists _, _. split; [reflexivity|].
    split; [exists m; split; [reflexivity | exact Hm]|].
    exists (now - timedelta_days d)%Z, None, (days_of (now - (now - timedelta_days d))).
    replace (now - (now - timedelta_days d))%Z with (timedelta_days d) by lia.
    rewrite days_of_timedelta.
    repeat split; try reflexivity; lia.
  - destruct (randint_ret 7 45 g7 ltac:(lia)) as (d2 & g8 & E8 & Hd2).
    assert ((randint 7 45 ≫= fun d0 : Z =>
               rand_ret (Some (now - timedelta_days d + timedelta_days d0)%Z)) g7
            = Ret (Some (now - timedelta_days d + timedelta_days d2)%Z, g8)) as Estop.
    { rewrite (rand_bind_ret _ _ _ _ _ E8). reflexivity. }
    rewrite (rand_bind_ret _ _ _ _ _ Estop).
    rewrite (rand_bind_ret _ _ g8 g8
               (days_of (now - timedelta_days d + timedelta_days d2 - (now - timedelta_days d)))
               eq_refl).
    destruct (randint_ret 1 3 g8 ltac:(lia)) as (np & g9 & E9 & Hnp).
    rewrite (rand_bind_ret _ _ _ _ _ E9).
    destruct (sample_ret PLATFORMS np g9 ltac:(cbn; lia)) as (pl & g10 & E10).
    rewrite (rand_bind_ret _ _ _ _ _ E10).
    destruct (choice_ret SPEND_RANGES g10 ltac:(discriminate)) as (sp & g11 & E11 & _).
    rewrite (rand_bind_ret _ _ _ _ _ E11).
    destruct (choice_ret IMPRESSION_RANGES g11 ltac:(discriminate)) as (im & g12 & E12 & _).
    rewrite (rand_bind_ret _ _ _ _ _ E12).
    eexists _, _. split; [reflexivity|].
    split; [exists m; split; [reflexivity | exact Hm]|].
    exists (now - timedelta_days d)%Z,
           (Some (now - timedelta_days d + timedelta_days d2)%Z),
           (days_of (now - timedelta_days d + timedelta_days d2 - (now - timedelta_days d))).
    replace (now - timedelta_days d + timedelta_days d2 - (now - timedelta_days d))%Z
      with (timedelta_days d2) by lia.
    rewrite days_of_timedelta.
    repeat split; try reflexivity; lia.
Qed.

(** The loop returns as many records as it has turns, all well-formed. *)
Lemma generate_from_spec (now utcoffset : Z) (competitor_name brand_key : string)
    (templates : list template) (product_names : list string) (days_range : Z)
    (count i : nat) (g : G) :
  templates <> [] ->
  Forall (fun t => bodies t <> [] /\ titles t <> []) templates ->
  product_names <> [] ->
  (1 <= days_range)%Z ->
  exists ads g',
    generate_from now utcoffset competitor_name brand_key templates product_names
      days_range i count g = Ret (ads, g') /\
    length ads = count /\
    Forall (well_formed_sample now) ads.
Proof.
  intros Hts Hfilled Hps Hdays. revert i g.
  induction count as [|count IH]; intros i g; cbn [generate_from].
  - exists [], g. split; [reflexivity|]. split; [reflexivity | constructor].
  - destruct (sample_ad_spec now utcoffset competitor_name brand_key templates product_names
                days_range i g Hts Hfilled Hps Hdays) as (ad & g1 & E1 & Hok).
    rewrite (rand_bind_ret _ _ _ _ _ E1).
    destruct (IH (S i) g1) as (ads & g2 & E2 & Hlen & Hall).
    rewrite (rand_bind_ret _ _ _ _ _ E2).
    exists (ad :: ads), g2. split; [reflexivity|].
    split; [cbn; lia | constructor; assumption].
Qed.

Lemma generate_sample_ads_spec (now utcoffset : Z) (competitor_name brand_key : string)
    (count : nat) (days_range : Z) (g : G) :
  (1 <= days_range)%Z ->
  exists ads g',
    generate_sample_ads now utcoffset competitor_name brand_key count days_range g
      = Ret (ads, g') /\
    length ads = count /\
    Forall (well_formed_sample now) ads.
Proof.
  intros Hdays. unfold generate_sample_ads.
  pose proof template_pools_filled as Hpools. unfold AD_TEMPLATES in Hpools.
  apply Forall_cons in Hpools as [[Hb1 Hb2] Hpools].
  apply Forall_cons in Hpools as [[Hm1 Hm2] Hpools].
  apply Forall_cons in Hpools as [[Hl1 Hl2] _].
  cbn [snd] in *.
  destruct (String.eqb brand_key "bebodywise");
    [|destruct (String.eqb brand_key "manmatters")];
    apply generate_from_spec; auto using products_of_filled.
Qed.


End WithRandom.



End SampleDataFacts.
